(** * app.js: a two-class webcam classifier, as an event-driven state machine

    The program is a set of DOM event handlers over five module-level
    variables ([mobilenetModel], [classifierModel], [embeddingsA],
    [embeddingsB], [predictInterval]).  The embedding below keeps that
    shape: a record for the variables, a record for the part of the page
    the handlers touch, a record for what the host keeps on the program's
    behalf (model objects, interval timers, suspended async functions), and
    one function per handler written in a small state monad, so that each
    definition can be read next to the handler it embeds.

    TensorFlow.js, MobileNet and the browser are outside the repository.
    Their values are kept abstract in the class [Runtime]; the control flow
    of [Model.fit] and [setInterval] (which callback runs when) is written
    out after their documented behaviour, since the claims about epochs
    and prediction cycles are claims about that control flow. *)

From Stdlib Require Import QArith.
From stdpp Require Import base list strings pretty gmap.

(** ** The classifier built by [buildModel] (app.js 83-94) *)

Inductive Activation := relu | softmax.

Inductive Layer :=
| dense (units : nat) (activation : Activation) (inputShape : option (list nat))
| dropout (rate : Q).

Inductive Optimizer := adam (learningRate : Q).
Inductive Loss := categoricalCrossentropy.
Inductive Metric := accuracy.

Record CompileArgs := {
  optimizer : Optimizer;
  loss : Loss;
  metrics : list Metric;
}.

(** A [tf.sequential()] object.  [epochs_fitted] summarises its weights:
    how many fitting epochs have updated them since construction. *)
Record Sequential := {
  layers : list Layer;
  compiled : option CompileArgs;
  epochs_fitted : nat;
}.

Definition tf_sequential : Sequential :=
  {| layers := []; compiled := None; epochs_fitted := 0 |}.

Definition model_add (l : Layer) (m : Sequential) : Sequential :=
  {| layers := layers m ++ [l]; compiled := compiled m;
     epochs_fitted := epochs_fitted m |}.

Definition model_compile (c : CompileArgs) (m : Sequential) : Sequential :=
  {| layers := layers m; compiled := Some c; epochs_fitted := epochs_fitted m |}.

Definition fit_one_epoch (m : Sequential) : Sequential :=
  {| layers := layers m; compiled := compiled m;
     epochs_fitted := S (epochs_fitted m) |}.

Definition buildModel (inputSize : nat) : Sequential :=
  let model := tf_sequential in
  let model := model_add (dense 128 relu (Some [inputSize])) model in
  let model := model_add (dropout 0.25%Q) model in
  let model := model_add (dense 2 softmax None) model in
  let model := model_compile
    {| optimizer := adam 0.0005%Q;
       loss := categoricalCrossentropy;
       metrics := [accuracy] |} model in
  model.

(** [tf.oneHot(indices, depth)]: row [i] has a 1 at column [i] and 0
    elsewhere. *)
Definition oneHot_row (depth : nat) (index : nat) : list nat :=
  (λ j : nat, if decide (j = index) then 1%nat else 0%nat) <$> seq 0 depth.

Definition tf_oneHot (indices : list nat) (depth : nat) : list (list nat) :=
  oneHot_row depth <$> indices.

(** ** What the external runtime provides *)

Class Runtime := {
  (** a JavaScript number coming out of a tensor *)
  Num : Type;
  (** the pixels of a 224x224 canvas *)
  Frame : Type;
  (** the loaded MobileNet object *)
  MobileNet : Type;
  (** a tensor of shape [D]: one embedding *)
  Embedding : Type;
  (** the length of an embedding, [xs.shape[1]] of any stack of them *)
  D : nat;
  (** [canvas.toDataURL()] *)
  toDataURL : Frame → string;
  (** [fromPixels(canvas).toFloat().div(255).expandDims(0)], then
      [infer(img, 'global_average')], then [squeeze().clone()] *)
  infer_global_average : MobileNet → Frame → Embedding;
  (** [model.predict(emb.expandDims(0))] followed by [data()]: the two
      numbers of the 2-unit output layer *)
  predict : Sequential → Embedding → Num * Num;
  (** [(p * 100).toFixed(2)] and [x.toFixed(3)] *)
  times100 : Num → Num;
  toFixed : Num → nat → string;
  (** what [el.style.width = value] stores: the page parses [value] as a
      CSS width and keeps its serialisation (["100.00%"] is kept as
      ["100%"]); a value that does not parse (["NaN%"]) is dropped and
      the declaration stays as it was *)
  css_width : string → option string;
}.

(** ** How a handler ends

    A handler runs to its end or to a thrown exception; either way the
    writes it has made stay.  An async handler whose promise is rejected
    ends the same way: nothing in app.js catches. *)

Inductive Completion (A : Type) :=
| Normal (a : A)
| Thrown.
Arguments Normal {A} a.
Arguments Thrown {A}.

(** ** Program state *)

Section App.
Context `{Runtime}.

(** The module-level variables (app.js 26-30).  [classifierModel] holds a
    reference into [heap]; [predictInterval] holds [null] or the handle
    returned by [setInterval]. *)
Record Vars := {
  mobilenetModel : option MobileNet;
  classifierModel : option nat;
  embeddingsA : list Embedding;
  embeddingsB : list Embedding;
  predictInterval : option nat;
}.

(** The attributes of the page that the handlers read or write. *)
Record Page := {
  trainBtn_disabled : bool;
  startPredictBtn_disabled : bool;
  stopPredictBtn_disabled : bool;
  statusEl_innerText : string;
  galleryA_children : list string;
  galleryB_children : list string;
  thumbA_src : string;
  thumbB_src : string;
  previewCanvas : option Frame;
  barA_width : string;
  barB_width : string;
  pctA_innerText : string;
  pctB_innerText : string;
}.

(** The arguments of the one [fit] call of the program (app.js 113-121)
    and how far that call has got: [fit_epoch] is the index of the next
    epoch. *)
Record FitJob := {
  fit_xs : list Embedding;
  fit_ys : list (list nat);
  fit_epochs : nat;
  fit_shuffle : bool;
  fit_epoch : nat;
}.

(** Where the async function [init] (app.js 189-193) is suspended. *)
Inductive InitStage := AwaitWebcam | AwaitMobileNet | InitDone.

(** What the host holds: the model objects ever built, the active
    interval timers (handle to period in ms), the number of handles handed
    out, the [fit] calls in flight (keyed by the model they fit, each one
    with the suspended train handler behind it), and the prediction
    callbacks suspended at [await prediction.data()]. *)
Record Host := {
  heap : list Sequential;
  timers : gmap nat nat;
  timer_seq : nat;
  fits : gmap nat FitJob;
  cycles : list (Num * Num);
  init_stage : InitStage;
}.

Record State := {
  vars : Vars;
  page : Page;
  host : Host;
}.

(** What a handler does that an observer can see, in order. *)
Inductive Effect :=
| Alert (msg : string)
| StatusText (msg : string)
| FitStarted (model : nat)
| IntervalSet (id period : nat)
| IntervalCleared (id : nat)
| CycleBegun (id : nat)
| BarsUpdated (pA pB : Num).

(** *** Field updates *)

Definition with_vars (f : Vars → Vars) (s : State) : State :=
  {| vars := f (vars s); page := page s; host := host s |}.
Definition with_page (f : Page → Page) (s : State) : State :=
  {| vars := vars s; page := f (page s); host := host s |}.
Definition with_host (f : Host → Host) (s : State) : State :=
  {| vars := vars s; page := page s; host := f (host s) |}.

Definition set_mobilenetModel (x : option MobileNet) (v : Vars) : Vars :=
  {| mobilenetModel := x; classifierModel := classifierModel v;
     embeddingsA := embeddingsA v; embeddingsB := embeddingsB v;
     predictInterval := predictInterval v |}.
Definition set_classifierModel (x : option nat) (v : Vars) : Vars :=
  {| mobilenetModel := mobilenetModel v; classifierModel := x;
     embeddingsA := embeddingsA v; embeddingsB := embeddingsB v;
     predictInterval := predictInterval v |}.
Definition set_embeddingsA (x : list Embedding) (v : Vars) : Vars :=
  {| mobilenetModel := mobilenetModel v; classifierModel := classifierModel v;
     embeddingsA := x; embeddingsB := embeddingsB v;
     predictInterval := predictInterval v |}.
Definition set_embeddingsB (x : list Embedding) (v : Vars) : Vars :=
  {| mobilenetModel := mobilenetModel v; classifierModel := classifierModel v;
     embeddingsA := embeddingsA v; embeddingsB := x;
     predictInterval := predictInterval v |}.
Definition set_predictInterval (x : option nat) (v : Vars) : Vars :=
  {| mobilenetModel := mobilenetModel v; classifierModel := classifierModel v;
     embeddingsA := embeddingsA v; embeddingsB := embeddingsB v;
     predictInterval := x |}.

Definition set_trainBtn_disabled (x : bool) (p : Page) : Page :=
  {| trainBtn_disabled := x;
     startPredictBtn_disabled := startPredictBtn_disabled p;
     stopPredictBtn_disabled := stopPredictBtn_disabled p;
     statusEl_innerText := statusEl_innerText p;
     galleryA_children := galleryA_children p;
     galleryB_children := galleryB_children p;
     thumbA_src := thumbA_src p; thumbB_src := thumbB_src p;
     previewCanvas := previewCanvas p;
     barA_width := barA_width p; barB_width := barB_width p;
     pctA_innerText := pctA_innerText p; pctB_innerText := pctB_innerText p |}.
Definition set_startPredictBtn_disabled (x : bool) (p : Page) : Page :=
  {| trainBtn_disabled := trainBtn_disabled p;
     startPredictBtn_disabled := x;
     stopPredictBtn_disabled := stopPredictBtn_disabled p;
     statusEl_innerText := statusEl_innerText p;
     galleryA_children := galleryA_children p;
     galleryB_children := galleryB_children p;
     thumbA_src := thumbA_src p; thumbB_src := thumbB_src p;
     previewCanvas := previewCanvas p;
     barA_width := barA_width p; barB_width := barB_width p;
     pctA_innerText := pctA_innerText p; pctB_innerText := pctB_innerText p |}.
Definition set_stopPredictBtn_disabled (x : bool) (p : Page) : Page :=
  {| trainBtn_disabled := trainBtn_disabled p;
     startPredictBtn_disabled := startPredictBtn_disabled p;
     stopPredictBtn_disabled := x;
     statusEl_innerText := statusEl_innerText p;
     galleryA_children := galleryA_children p;
     galleryB_children := galleryB_children p;
     thumbA_src := thumbA_src p; thumbB_src := thumbB_src p;
     previewCanvas := previewCanvas p;
     barA_width := barA_width p; barB_width := barB_width p;
     pctA_innerText := pctA_innerText p; pctB_innerText := pctB_innerText p |}.
Definition set_statusEl_innerText (x : string) (p : Page) : Page :=
  {| trainBtn_disabled := trainBtn_disabled p;
     startPredictBtn_disabled := startPredictBtn_disabled p;
     stopPredictBtn_disabled := stopPredictBtn_disabled p;
     statusEl_innerText := x;
     galleryA_children := galleryA_children p;
     galleryB_children := galleryB_children p;
     thumbA_src := thumbA_src p; thumbB_src := thumbB_src p;
     previewCanvas := previewCanvas p;
     barA_width := barA_width p; barB_width := barB_width p;
     pctA_innerText := pctA_innerText p; pctB_innerText := pctB_innerText p |}.
Definition set_galleryA (children : list string) (src : string) (p : Page) : Page :=
  {| trainBtn_disabled := trainBtn_disabled p;
     startPredictBtn_disabled := startPredictBtn_disabled p;
     stopPredictBtn_disabled := stopPredictBtn_disabled p;
     statusEl_innerText := statusEl_innerText p;
     galleryA_children := children;
     galleryB_children := galleryB_children p;
     thumbA_src := src; thumbB_src := thumbB_src p;
     previewCanvas := previewCanvas p;
     barA_width := barA_width p; barB_width := barB_width p;
     pctA_innerText := pctA_innerText p; pctB_innerText := pctB_innerText p |}.
Definition set_galleryB (children : list string) (src : string) (p : Page) : Page :=
  {| trainBtn_disabled := trainBtn_disabled p;
     startPredictBtn_disabled := startPredictBtn_disabled p;
     stopPredictBtn_disabled := stopPredictBtn_disabled p;
     statusEl_innerText := statusEl_innerText p;
     galleryA_children := galleryA_children p;
     galleryB_children := children;
     thumbA_src := thumbA_src p; thumbB_src := src;
     previewCanvas := previewCanvas p;
     barA_width := barA_width p; barB_width := barB_width p;
     pctA_innerText := pctA_innerText p; pctB_innerText := pctB_innerText p |}.
Definition set_previewCanvas (x : option Frame) (p : Page) : Page :=
  {| trainBtn_disabled := trainBtn_disabled p;
     startPredictBtn_disabled := startPredictBtn_disabled p;
     stopPredictBtn_disabled := stopPredictBtn_disabled p;
     statusEl_innerText := statusEl_innerText p;
     galleryA_children := galleryA_children p;
     galleryB_children := galleryB_children p;
     thumbA_src := thumbA_src p; thumbB_src := thumbB_src p;
     previewCanvas := x;
     barA_width := barA_width p; barB_width := barB_width p;
     pctA_innerText := pctA_innerText p; pctB_innerText := pctB_innerText p |}.
Definition set_bars (wA wB tA tB : string) (p : Page) : Page :=
  {| trainBtn_disabled := trainBtn_disabled p;
     startPredictBtn_disabled := startPredictBtn_disabled p;
     stopPredictBtn_disabled := stopPredictBtn_disabled p;
     statusEl_innerText := statusEl_innerText p;
     galleryA_children := galleryA_children p;
     galleryB_children := galleryB_children p;
     thumbA_src := thumbA_src p; thumbB_src := thumbB_src p;
     previewCanvas := previewCanvas p;
     barA_width := wA; barB_width := wB;
     pctA_innerText := tA; pctB_innerText := tB |}.

Definition set_heap (x : list Sequential) (h : Host) : Host :=
  {| heap := x; timers := timers h; timer_seq := timer_seq h;
     fits := fits h; cycles := cycles h; init_stage := init_stage h |}.
Definition set_timers (x : gmap nat nat) (n : nat) (h : Host) : Host :=
  {| heap := heap h; timers := x; timer_seq := n;
     fits := fits h; cycles := cycles h; init_stage := init_stage h |}.
Definition set_fits (x : gmap nat FitJob) (h : Host) : Host :=
  {| heap := heap h; timers := timers h; timer_seq := timer_seq h;
     fits := x; cycles := cycles h; init_stage := init_stage h |}.
Definition set_cycles (x : list (Num * Num)) (h : Host) : Host :=
  {| heap := heap h; timers := timers h; timer_seq := timer_seq h;
     fits := fits h; cycles := x; init_stage := init_stage h |}.
Definition set_init_stage (x : InitStage) (h : Host) : Host :=
  {| heap := heap h; timers := timers h; timer_seq := timer_seq h;
     fits := fits h; cycles := cycles h; init_stage := x |}.

(** ** Handlers as state transformers

    A handler is a function from the state to a completion, the state it
    leaves and the effects it has had, in order. *)

Definition Js (A : Type) : Type := State → Completion A * State * list Effect.

Definition js_ret {A} (a : A) : Js A := λ s, (Normal a, s, []).

Definition js_bind {A B} (m : Js A) (k : A → Js B) : Js B := λ s,
  match m s with
  | (Normal a, s1, out1) =>
      match k a s1 with
      | (r, s2, out2) => (r, s2, out1 ++ out2)
      end
  | (Thrown, s1, out1) => (Thrown, s1, out1)
  end.

#[export] Instance js_mret : MRet Js := @js_ret.
#[export] Instance js_mbind : MBind Js := λ A B k m, js_bind m k.

Definition throw {A} : Js A := λ s, (Thrown, s, []).
Definition gets {A} (f : State → A) : Js A := λ s, (Normal (f s), s, []).
Definition modify (f : State → State) : Js unit := λ s, (Normal (), f s, []).
Definition emit (e : Effect) : Js unit := λ s, (Normal (), s, [e]).

Definition state_after {A} (r : Completion A * State * list Effect) : State :=
  r.1.2.
Definition effects_of {A} (r : Completion A * State * list Effect) : list Effect :=
  r.2.

(** *** Host and page primitives *)

(** [alert(msg)] *)
Definition alert (msg : string) : Js unit := emit (Alert msg).

(** [statusEl.innerText = msg] *)
Definition set_status (msg : string) : Js unit :=
  modify (with_page (set_statusEl_innerText msg)) ;;
  emit (StatusText msg).

(** [setInterval(callback, ms)]: handles are integers greater than zero,
    never reused. *)
Definition setInterval (ms : nat) : Js nat :=
  n ← gets (λ s, timer_seq (host s));
  let id := S n in
  modify (with_host (λ h, set_timers (<[id := ms]> (timers h)) (S n) h)) ;;
  emit (IntervalSet id ms) ;;
  js_ret id.

(** [clearInterval(id)]: silent when no such timer is active. *)
Definition clearInterval (id : nat) : Js unit :=
  modify (with_host (λ h, set_timers (delete id (timers h)) (timer_seq h) h)) ;;
  emit (IntervalCleared id).

(** JavaScript truthiness of [predictInterval]: [null] and [0] are falsy. *)
Definition truthy (v : option nat) : bool :=
  match v with
  | Some (S _) => true
  | _ => false
  end.

(** ** The functions of app.js *)

(** app.js 49-55 *)
Inductive GalleryEl := galleryA | galleryB.

Definition addThumbnail (imgUrl : string) (gallery : GalleryEl) : Js unit :=
  match gallery with
  | galleryA =>
      modify (with_page (λ p, set_galleryA (galleryA_children p ++ [imgUrl]) imgUrl p))
  | galleryB =>
      modify (with_page (λ p, set_galleryB (galleryB_children p ++ [imgUrl]) imgUrl p))
  end.

(** app.js 58-64.  [mobilenetModel] is [undefined] until [loadMobileNet]
    has assigned it; [mobilenetModel.infer] then throws a TypeError, which
    [tf.tidy] lets through. *)
Definition embedFromCanvas (canvas : Frame) : Js Embedding :=
  m ← gets (λ s, mobilenetModel (vars s));
  match m with
  | None => throw
  | Some net => js_ret (infer_global_average net canvas)
  end.

(** app.js 67-72.  [canvas] is what [captureFrameToCanvas] has drawn from
    the video element at the time of the click. *)
Definition captureA_onclick (canvas : Frame) : Js unit :=
  addThumbnail (toDataURL canvas) galleryA ;;
  e ← embedFromCanvas canvas;
  modify (with_vars (λ v, set_embeddingsA (embeddingsA v ++ [e]) v)) ;;
  n ← gets (λ s, length (embeddingsA (vars s)));
  set_status ("Class A samples: " +:+ pretty n).

(** app.js 75-80 *)
Definition captureB_onclick (canvas : Frame) : Js unit :=
  addThumbnail (toDataURL canvas) galleryB ;;
  e ← embedFromCanvas canvas;
  modify (with_vars (λ v, set_embeddingsB (embeddingsB v ++ [e]) v)) ;;
  n ← gets (λ s, length (embeddingsB (vars s)));
  set_status ("Class B samples: " +:+ pretty n).

(** [classifierModel = buildModel(...)]: a new object, referenced by its
    position in the heap. *)
Definition new_model (m : Sequential) : Js nat :=
  r ← gets (λ s, length (heap (host s)));
  modify (with_host (λ h, set_heap (heap h ++ [m]) h)) ;;
  js_ret r.

(** [Array(n).fill(0)] followed by [Array(m).fill(1)] (app.js 107) *)
Definition labels_of (nA nB : nat) : list nat :=
  replicate nA 0%nat ++ replicate nB 1%nat.

(** The call [classifierModel.fit(xs, ys, {epochs: 25, shuffle: true,
    callbacks: {onEpochEnd}})]: the call is registered with the host and
    the handler is suspended on its promise. *)
Definition start_fit (r : nat) (xs : list Embedding) (ys : list (list nat)) : Js unit :=
  let job := {| fit_xs := xs; fit_ys := ys; fit_epochs := 25;
                fit_shuffle := true; fit_epoch := 0 |} in
  modify (with_host (λ h, set_fits (<[r := job]> (fits h)) h)) ;;
  emit (FitStarted r).

(** app.js 97-121: the train handler up to [await classifierModel.fit]. *)
Definition trainBtn_onclick : Js unit :=
  nA ← gets (λ s, length (embeddingsA (vars s)));
  nB ← gets (λ s, length (embeddingsB (vars s)));
  if decide (nA + nB < 10)%nat then
    alert "At least 10 total images needed (example: 5A + 5B)"
  else
    modify (with_page (set_trainBtn_disabled true)) ;;
    set_status "Preparing training data..." ;;
    xs ← gets (λ s, embeddingsA (vars s) ++ embeddingsB (vars s));
    let labels := labels_of nA nB in
    let ys := tf_oneHot labels 2 in
    r ← new_model (buildModel D);
    modify (with_vars (set_classifierModel (Some r))) ;;
    set_status "Training..." ;;
    start_fit r xs ys.

(** app.js 118: the text of the progress notification; [logs] is the pair
    of [logs.loss] and [logs.acc]. *)
Definition epoch_text (epoch : nat) (logs : Num * Num) : string :=
  "Epoch " +:+ pretty (epoch + 1)%nat +:+ " — Loss: "
    +:+ toFixed logs.1 3 +:+ " Acc: " +:+ toFixed logs.2 3.

(** app.js 117-119: the [onEpochEnd] callback. *)
Definition onEpochEnd (epoch : nat) (logs : Num * Num) : Js unit :=
  set_status (epoch_text epoch logs).

(** app.js 123-128: the train handler after [await classifierModel.fit]. *)
Definition trainBtn_onclick_resumed : Js unit :=
  set_status "Training Done! Start Prediction." ;;
  modify (with_page (set_startPredictBtn_disabled false)) ;;
  modify (with_page (set_trainBtn_disabled false)).

(** app.js 132-158: the start handler.  The callback is the one of
    [predict_cycle] below. *)
Definition startPredictBtn_onclick : Js unit :=
  modify (with_page (set_startPredictBtn_disabled true)) ;;
  modify (with_page (set_stopPredictBtn_disabled false)) ;;
  set_status "Predicting Live..." ;;
  id ← setInterval 300;
  modify (with_vars (set_predictInterval (Some id))).

(** app.js 170-179.  The two widths go through the style setter, the two
    labels are text. *)
Definition updateBars (pA pB : Num) : Js unit :=
  let aPct := toFixed (times100 pA) 2 in
  let bPct := toFixed (times100 pB) 2 in
  modify (with_page (λ p,
    set_bars (default (barA_width p) (css_width (aPct +:+ "%")))
             (default (barB_width p) (css_width (bPct +:+ "%")))
             (aPct +:+ "%") (bPct +:+ "%") p));;
  emit (BarsUpdated pA pB).

(** app.js 137-147: the interval callback up to [await prediction.data()].
    [classifierModel.predict] throws a TypeError while [classifierModel]
    is [undefined]. *)
Definition predict_cycle (id : nat) (canvas : Frame) : Js unit :=
  emit (CycleBegun id) ;;
  modify (with_page (set_previewCanvas (Some canvas))) ;;
  emb ← embedFromCanvas canvas;
  c ← gets (λ s, classifierModel (vars s));
  match c with
  | None => throw
  | Some r =>
      m ← gets (λ s, heap (host s) !! r);
      match m with
      | None => throw
      | Some model =>
          modify (with_host (λ h, set_cycles (cycles h ++ [predict model emb]) h))
      end
  end.

(** app.js 148-156: the interval callback after [await prediction.data()]. *)
Definition predict_cycle_resumed (data : Num * Num) : Js unit :=
  let '(pA, pB) := data in
  updateBars pA pB.

(** app.js 161-167 *)
Definition stopPredictBtn_onclick : Js unit :=
  t ← gets (λ s, predictInterval (vars s));
  (if truthy t then
     match t with
     | Some id => clearInterval id
     | None => js_ret ()
     end
   else js_ret ()) ;;
  modify (with_vars (set_predictInterval None)) ;;
  modify (with_page (set_startPredictBtn_disabled false)) ;;
  modify (with_page (set_stopPredictBtn_disabled true)) ;;
  set_status "Stopped.".

(** app.js 182-193: [init] and [loadMobileNet], cut at their awaits. *)
Definition init_after_webcam : Js unit :=
  set_status "Loading MobileNet..." ;;
  modify (with_host (set_init_stage AwaitMobileNet)).

Definition init_after_load (net : MobileNet) : Js unit :=
  modify (with_vars (set_mobilenetModel (Some net))) ;;
  set_status "MobileNet Loaded ✓" ;;
  set_status "Ready! Capture images now." ;;
  modify (with_host (set_init_stage InitDone)).

(** ** The event loop

    One [Event] is one task of the browser's event loop: a click, the
    settling of a promise the program awaits, or the firing of an interval
    timer.  Awaits on promises that are already settled ([embedFromCanvas]
    computes inside [tf.tidy] before it returns) resume in the same task,
    so they are not events. *)

Inductive Event :=
| WebcamReady
| MobileNetLoaded (net : MobileNet)
| ClickCaptureA (canvas : Frame)
| ClickCaptureB (canvas : Frame)
| ClickTrain
| ClickStartPredict
| ClickStopPredict
| FitEpochEnd (model : nat) (loss acc : Num)
| FitResolved (model : nat)
| FitRejected (model : nat)
| IntervalFired (id : nat) (canvas : Frame)
| PredictionData (k : nat).

(** A disabled button dispatches no click event. *)
Definition click (disabled : Page → bool) (handler : Js unit) : Js unit :=
  d ← gets (λ s, disabled (page s));
  if (d : bool) then mret () else handler.

(** One epoch of a [fit] call in flight: the weights of the fitted model
    move, then [onEpochEnd(epoch, logs)] runs.  [fit] goes through the
    epochs [0 .. epochs-1] in order; no callback of the program sets
    [stopTraining]. *)
Definition fit_epoch_end (r : nat) (loss acc : Num) : Js unit :=
  j ← gets (λ s, fits (host s) !! r);
  match j with
  | Some job =>
      if decide (fit_epoch job < fit_epochs job)%nat then
        modify (with_host (λ h, set_heap (alter fit_one_epoch r (heap h)) h));;
        modify (with_host (λ h, set_fits
          (<[r := {| fit_xs := fit_xs job; fit_ys := fit_ys job;
                     fit_epochs := fit_epochs job;
                     fit_shuffle := fit_shuffle job;
                     fit_epoch := S (fit_epoch job) |}]> (fits h)) h));;
        onEpochEnd (fit_epoch job) (loss, acc)
      else mret ()
  | None => mret ()
  end.

(** The promise of [fit] is fulfilled once all epochs are done; the train
    handler resumes. *)
Definition fit_resolved (r : nat) : Js unit :=
  j ← gets (λ s, fits (host s) !! r);
  match j with
  | Some job =>
      if decide (fit_epoch job = fit_epochs job) then
        modify (with_host (λ h, set_fits (delete r (fits h)) h));;
        trainBtn_onclick_resumed
      else mret ()
  | None => mret ()
  end.

(** The promise of [fit] is rejected (a failure inside the runtime, at any
    point of the run): the rest of the train handler never runs. *)
Definition fit_rejected (r : nat) : Js unit :=
  modify (with_host (λ h, set_fits (delete r (fits h)) h)).

(** An interval timer fires only while it is active. *)
Definition interval_fired (id : nat) (canvas : Frame) : Js unit :=
  t ← gets (λ s, timers (host s) !! id);
  match t with
  | Some _ => predict_cycle id canvas
  | None => mret ()
  end.

Definition prediction_data (k : nat) : Js unit :=
  c ← gets (λ s, cycles (host s) !! k);
  match c with
  | Some data =>
      modify (with_host (λ h, set_cycles (delete k (cycles h)) h));;
      predict_cycle_resumed data
  | None => mret ()
  end.

Definition dispatch (e : Event) : Js unit :=
  match e with
  | WebcamReady =>
      st ← gets (λ s, init_stage (host s));
      match st with AwaitWebcam => init_after_webcam | _ => mret () end
  | MobileNetLoaded net =>
      st ← gets (λ s, init_stage (host s));
      match st with AwaitMobileNet => init_after_load net | _ => mret () end
  | ClickCaptureA canvas => captureA_onclick canvas
  | ClickCaptureB canvas => captureB_onclick canvas
  | ClickTrain => click trainBtn_disabled trainBtn_onclick
  | ClickStartPredict => click startPredictBtn_disabled startPredictBtn_onclick
  | ClickStopPredict => click stopPredictBtn_disabled stopPredictBtn_onclick
  | FitEpochEnd r loss acc => fit_epoch_end r loss acc
  | FitResolved r => fit_resolved r
  | FitRejected r => fit_rejected r
  | IntervalFired id canvas => interval_fired id canvas
  | PredictionData k => prediction_data k
  end.

Definition step (s : State) (e : Event) : State * list Effect :=
  let r := dispatch e s in (state_after r, effects_of r).

Fixpoint run (s : State) (es : list Event) : State * list Effect :=
  match es with
  | [] => (s, [])
  | e :: es' =>
      let '(s1, out1) := step s e in
      let '(s2, out2) := run s1 es' in
      (s2, out1 ++ out2)
  end.

(** The state when the script has been evaluated: [page0] is the page as
    index.html declares it, and [init()] is waiting for the camera. *)
Definition initial (page0 : Page) : State :=
  {| vars := {| mobilenetModel := None; classifierModel := None;
                embeddingsA := []; embeddingsB := [];
                predictInterval := None |};
     page := page0;
     host := {| heap := []; timers := ∅; timer_seq := 0; fits := ∅;
                cycles := []; init_stage := AwaitWebcam |} |}.

(** *** Observations *)

(** The sample store's [counts()]. *)
Definition counts (s : State) : nat * nat :=
  (length (embeddingsA (vars s)), length (embeddingsB (vars s))).

Inductive PredictorState := Idle | Running.

(** The live predictor is Running while [predictInterval] holds a handle. *)
Definition predictor (s : State) : PredictorState :=
  match predictInterval (vars s) with
  | Some _ => Running
  | None => Idle
  end.

Definition is_captureA (e : Event) : bool :=
  match e with ClickCaptureA _ => true | _ => false end.
Definition is_captureB (e : Event) : bool :=
  match e with ClickCaptureB _ => true | _ => false end.
Definition is_start (e : Event) : bool :=
  match e with ClickStartPredict => true | _ => false end.

Definition is_train (e : Event) : bool :=
  match e with ClickTrain => true | _ => false end.
Definition is_fit_resolved (e : Event) : bool :=
  match e with FitResolved _ => true | _ => false end.

(** The events that belong to the [fit] call on model [r]. *)
Definition is_fit_event (r : nat) (e : Event) : bool :=
  match e with
  | FitEpochEnd r' _ _ | FitResolved r' | FitRejected r' => bool_decide (r' = r)
  | _ => false
  end.

Fixpoint count_events (p : Event → bool) (es : list Event) : nat :=
  match es with
  | [] => 0
  | e :: es' => (if p e then 1 else 0) + count_events p es'
  end.

Definition is_cycle_begun (e : Effect) : bool :=
  match e with CycleBegun _ => true | _ => false end.
Definition is_status (e : Effect) : bool :=
  match e with StatusText _ => true | _ => false end.
Definition is_fit_started (e : Effect) : bool :=
  match e with FitStarted _ => true | _ => false end.

(** The effects of the events of a run that satisfy [p], in order. *)
Fixpoint effects_where (p : Event → bool) (s : State) (es : list Event) : list Effect :=
  match es with
  | [] => []
  | e :: es' =>
      let '(s1, out1) := step s e in
      (if p e then out1 else []) ++ effects_where p s1 es'
  end.

(** The notifications of the epochs [first], [first+1], ... with the
    given logs. *)
Fixpoint epoch_notifications (first : nat) (logs : list (Num * Num)) : list Effect :=
  match logs with
  | [] => []
  | l :: logs' => StatusText (epoch_text first l) :: epoch_notifications (S first) logs'
  end.

Definition fit_epoch_events (r : nat) (logs : list (Num * Num)) : list Event :=
  (λ l, FitEpochEnd r l.1 l.2) <$> logs.

(** *** Invariants of the event loop *)

(** Every active interval timer is the one [predictInterval] refers to. *)
Definition timers_tracked (s : State) : Prop :=
  ∀ id, is_Some (timers (host s) !! id) →
        predictInterval (vars s) = Some id ∧ (0 < id)%nat.

(** References point into the heap. *)
Definition refs_valid (s : State) : Prop :=
  (∀ r, classifierModel (vars s) = Some r → (r < length (heap (host s)))%nat) ∧
  (∀ r, is_Some (fits (host s) !! r) → (r < length (heap (host s)))%nat).

(** At most one [fit] call is in flight, and the train button is disabled
    while it is. *)
Definition single_fit (s : State) : Prop :=
  fits (host s) = ∅ ∨
  (trainBtn_disabled (page s) = true ∧ ∃ r job, fits (host s) = {[ r := job ]}).

(** The train handler is suspended on the [fit] of model [r], or that
    [fit] has been rejected: [classifierModel] is [r], which has been
    fitted for some number of epochs since it was built, the train button
    is still disabled and no other [fit] is in flight. *)
Definition training_unfinished (r : nat) (s : State) : Prop :=
  classifierModel (vars s) = Some r ∧
  trainBtn_disabled (page s) = true ∧
  (∀ r', r' ≠ r → fits (host s) !! r' = None) ∧
  ∃ k, heap (host s) !! r = Some (Nat.iter k fit_one_epoch (buildModel D)).

Definition not_resolved (r : nat) (e : Event) : bool :=
  match e with
  | FitResolved r' => negb (bool_decide (r' = r))
  | _ => true
  end.

(** *** A session to evaluate the program on *)

(** index.html is not among the sources.  This is a page on which the
    program can be used at all: the train button is enabled (the script
    enables it only after a training run), the start and stop buttons
    are disabled until the script enables them. *)
Definition page_at_load : Page :=
  {| trainBtn_disabled := false;
     startPredictBtn_disabled := true;
     stopPredictBtn_disabled := true;
     statusEl_innerText := "";
     galleryA_children := []; galleryB_children := [];
     thumbA_src := ""; thumbB_src := "";
     previewCanvas := None;
     barA_width := ""; barB_width := "";
     pctA_innerText := ""; pctB_innerText := "" |}.

(** The camera and MobileNet become ready, then five captures per class. *)
Definition ten_samples (net : MobileNet) (canvas : Frame) : list Event :=
  [WebcamReady; MobileNetLoaded net] ++
  replicate 5 (ClickCaptureA canvas) ++ replicate 5 (ClickCaptureB canvas).

(** A click on the train button and the whole [fit] of model [r]. *)
Definition full_training (r : nat) (logs : Num * Num) : list Event :=
  ClickTrain :: replicate 25 (FitEpochEnd r logs.1 logs.2) ++ [FitResolved r].

(** *** Further vocabulary *)

Definition is_webcam_ready (e : Event) : bool :=
  match e with WebcamReady => true | _ => false end.
Definition is_prediction_data (e : Event) : bool :=
  match e with PredictionData _ => true | _ => false end.

(** What the four bar elements show. *)
Definition bars (s : State) : string * string * string * string :=
  (barA_width (page s), barB_width (page s),
   pctA_innerText (page s), pctB_innerText (page s)).

Definition is_epoch_of (r : nat) (e : Event) : bool :=
  match e with
  | FitEpochEnd r' _ _ => bool_decide (r' = r)
  | _ => false
  end.

(** The event settles the [fit] on model [r] neither way. *)
Definition not_settled (r : nat) (e : Event) : bool :=
  match e with
  | FitResolved r' | FitRejected r' => negb (bool_decide (r' = r))
  | _ => true
  end.

(** *** Further invariants of the event loop *)

(** [mobilenetModel] is assigned exactly when [init] has run to its end,
    and while it is not assigned there is no sample, no classifier and no
    [fit]. *)
Definition init_gate (s : State) : Prop :=
  (is_Some (mobilenetModel (vars s)) ↔ init_stage (host s) = InitDone) ∧
  (mobilenetModel (vars s) = None →
     embeddingsA (vars s) = [] ∧ embeddingsB (vars s) = [] ∧
     classifierModel (vars s) = None ∧ fits (host s) = ∅).

(** [init] is still waiting for the camera. *)
Definition camera_pending (s : State) : Prop :=
  init_stage (host s) = AwaitWebcam ∧ mobilenetModel (vars s) = None ∧
  embeddingsA (vars s) = [] ∧ embeddingsB (vars s) = [] ∧
  classifierModel (vars s) = None ∧ fits (host s) = ∅.

(** The train button is disabled and no [fit] is in flight that could
    enable it again. *)
Definition train_locked (s : State) : Prop :=
  trainBtn_disabled (page s) = true ∧ fits (host s) = ∅.

(** Timer [id] is active and [predictInterval] does not refer to it. *)
Definition timer_orphaned (id ms : nat) (s : State) : Prop :=
  timers (host s) !! id = Some ms ∧
  predictInterval (vars s) ≠ Some id ∧
  (id ≤ timer_seq (host s))%nat.

(** Whatever can lead to a prediction cycle (an enabled start or stop
    button, an active timer, a [fit] in flight) comes with a classifier. *)
Definition predictor_guarded (s : State) : Prop :=
  (startPredictBtn_disabled (page s) = false → is_Some (classifierModel (vars s))) ∧
  (stopPredictBtn_disabled (page s) = false → is_Some (classifierModel (vars s))) ∧
  (∀ id, is_Some (timers (host s) !! id) → is_Some (classifierModel (vars s))) ∧
  (∀ r, is_Some (fits (host s) !! r) → is_Some (classifierModel (vars s))).

(** Every model on the heap is as [buildModel] makes it, fitted for at
    most 25 epochs, and a [fit] in flight stands at the epoch count of the
    model it fits, out of 25. *)
Definition models_fitted (s : State) : Prop :=
  ∀ r m, heap (host s) !! r = Some m →
    (∃ k, (k ≤ 25)%nat ∧ m = Nat.iter k fit_one_epoch (buildModel D)) ∧
    (∀ job, fits (host s) !! r = Some job →
            fit_epochs job = 25%nat ∧ fit_epoch job = epochs_fitted m).

(** The model of a [fit] in flight is the one [classifierModel] refers to. *)
Definition fit_is_classifier (s : State) : Prop :=
  ∀ r, is_Some (fits (host s) !! r) → classifierModel (vars s) = Some r.

(** The large thumbnail of each class shows the last image of its gallery. *)
Definition thumbA_latest (s : State) : Prop :=
  last (galleryA_children (page s)) = Some (thumbA_src (page s)).
Definition thumbB_latest (s : State) : Prop :=
  last (galleryB_children (page s)) = Some (thumbB_src (page s)).

End App.

(** ** A small runtime to evaluate the handlers on *)

Definition demo_runtime : Runtime := {|
  Num := nat;
  Frame := nat;
  MobileNet := unit;
  Embedding := nat;
  D := 4;
  toDataURL := λ f, "data:" +:+ pretty f;
  infer_global_average := λ _ f, f;
  predict := λ m e, (e, epochs_fitted m);
  times100 := λ p, (p * 100)%nat;
  toFixed := λ x _, pretty x;
  css_width := λ v, if decide (v = "NaN%") then None else Some v;
|}.


(** States of a session on that runtime, for evaluating the theorems. *)
Definition demo_start : @State demo_runtime :=
  @initial demo_runtime (@page_at_load demo_runtime).

Definition demo_loaded : @State demo_runtime :=
  (@run demo_runtime demo_start
     [@WebcamReady demo_runtime; @MobileNetLoaded demo_runtime tt]).1.

Definition demo_five : @State demo_runtime :=
  (@run demo_runtime demo_loaded
     (replicate 3 (@ClickCaptureA demo_runtime 1%nat) ++
      replicate 2 (@ClickCaptureB demo_runtime 2%nat))).1.

Definition demo_ten_events : list (@Event demo_runtime) :=
  @ten_samples demo_runtime tt 7%nat.

Definition demo_ten : @State demo_runtime :=
  (@run demo_runtime demo_start demo_ten_events).1.

(** Further sessions: a completed training run, prediction started after
    it, and a second start after a second training run. *)
Definition demo_logs : @Num demo_runtime * @Num demo_runtime := (3%nat, 4%nat).

Definition demo_trained_events : list (@Event demo_runtime) :=
  demo_ten_events ++ @full_training demo_runtime 0%nat demo_logs.

Definition demo_running_events : list (@Event demo_runtime) :=
  demo_trained_events ++ [@ClickStartPredict demo_runtime].

Definition demo_leak_events : list (@Event demo_runtime) :=
  demo_running_events ++ @full_training demo_runtime 1%nat demo_logs ++
  [@ClickStartPredict demo_runtime].

Definition demo_running : @State demo_runtime :=
  (@run demo_runtime demo_start demo_running_events).1.

Definition demo_leak : @State demo_runtime :=
  (@run demo_runtime demo_start demo_leak_events).1.

(** Prediction is running and one cycle is waiting for its data. *)
Definition demo_predicting : @State demo_runtime :=
  (@run demo_runtime demo_start
     (demo_running_events ++ [@IntervalFired demo_runtime 1%nat 5%nat])).1.

(** * Properties *)

Section Proofs.
Context `{Runtime}.

Ltac js_unfold :=
  unfold step, state_after, effects_of, dispatch, click,
    fit_epoch_end, fit_resolved, fit_rejected, interval_fired, prediction_data,
    captureA_onclick, captureB_onclick, trainBtn_onclick, trainBtn_onclick_resumed,
    startPredictBtn_onclick, stopPredictBtn_onclick, predict_cycle,
    predict_cycle_resumed, init_after_webcam, init_after_load,
    updateBars, onEpochEnd, start_fit, new_model, embedFromCanvas, addThumbnail,
    setInterval, clearInterval, set_status, alert,
    emit, modify, gets, throw, mbind, mret, js_mbind, js_mret, js_bind, js_ret.

(** Unfold a handler on a state split into its fields and follow every
    branch it can take. *)
Ltac js_cases :=
  js_unfold; cbn; repeat (case_match; cbn; simplify_eq/=).

(** ** Runs *)

Lemma run_cons (s : State) (e : Event) (es : list Event) :
  run s (e :: es) =
  ((run (step s e).1 es).1, (step s e).2 ++ (run (step s e).1 es).2).
Proof.
  cbn [run]. destruct (step s e) as [s1 out1]; cbn [fst snd].
  by destruct (run s1 es).
Qed.

Lemma run_app (s : State) (es1 es2 : list Event) :
  run s (es1 ++ es2) =
  ((run (run s es1).1 es2).1, (run s es1).2 ++ (run (run s es1).1 es2).2).
Proof.
  revert s. induction es1 as [|e es1 IH]; intros s.
  - cbn [app run fst snd]. by destruct (run s es2).
  - rewrite <- app_comm_cons, !run_cons, IH. cbn [fst snd].
    by rewrite app_assoc.
Qed.

Lemma run_cons_state (s : State) (e : Event) (es : list Event) :
  (run s (e :: es)).1 = (run (step s e).1 es).1.
Proof. by rewrite run_cons. Qed.

(** An invariant of every step is an invariant of every run. *)
Lemma run_invariant (P : State → Prop) (ok : Event → bool) :
  (∀ s e, ok e = true → P s → P (step s e).1) →
  ∀ es s, forallb ok es = true → P s → P (run s es).1.
Proof.
  intros Hstep. induction es as [|e es IH]; intros s Hok HP; [done|].
  cbn in Hok. apply andb_prop in Hok as [He Hes].
  rewrite run_cons_state. apply IH; [done|]. by apply Hstep.
Qed.

(** ** The sample store *)

Lemma step_embeddingsA (s : State) (e : Event) :
  embeddingsA (vars (step s e).1) =
  embeddingsA (vars s) ++
    match e, mobilenetModel (vars s) with
    | ClickCaptureA canvas, Some net => [infer_global_average net canvas]
    | _, _ => []
    end.
Proof.
  destruct s as [v p h]. destruct e; js_cases; by rewrite ?app_nil_r.
Qed.

Lemma step_embeddingsB (s : State) (e : Event) :
  embeddingsB (vars (step s e).1) =
  embeddingsB (vars s) ++
    match e, mobilenetModel (vars s) with
    | ClickCaptureB canvas, Some net => [infer_global_average net canvas]
    | _, _ => []
    end.
Proof.
  destruct s as [v p h]. destruct e; js_cases; by rewrite ?app_nil_r.
Qed.

(** Once loaded, the extractor stays loaded. *)
Lemma step_mobilenet_loaded (s : State) (e : Event) :
  is_Some (mobilenetModel (vars s)) →
  is_Some (mobilenetModel (vars (step s e).1)).
Proof.
  destruct s as [v p h]. intros Hm. destruct e; js_cases; by eauto.
Qed.

Lemma step_counts_loaded (s : State) (e : Event) :
  is_Some (mobilenetModel (vars s)) →
  counts (step s e).1 =
  ((counts s).1 + (if is_captureA e then 1 else 0),
   (counts s).2 + (if is_captureB e then 1 else 0))%nat.
Proof.
  intros [net Hnet]. unfold counts.
  rewrite step_embeddingsA, step_embeddingsB, Hnet, !length_app.
  destruct e; cbn; f_equal; lia.
Qed.

(** C4 (as amended).  From a state in which the embedding extractor is
    loaded, after any sequence of events the per-class counts are the
    counts before plus the number of class-A captures and the number of
    class-B captures in the sequence, however the captures are interleaved
    with each other and with other events. *)
Theorem counts_after_captures (s : State) (es : list Event) :
  is_Some (mobilenetModel (vars s)) →
  counts (run s es).1 =
  ((counts s).1 + count_events is_captureA es,
   (counts s).2 + count_events is_captureB es)%nat.
Proof.
  revert s. induction es as [|e es IH]; intros s Hm.
  - cbn. unfold counts. f_equal; lia.
  - rewrite run_cons_state, IH by by apply step_mobilenet_loaded.
    rewrite step_counts_loaded by done. cbn. f_equal; lia.
Qed.

(** C8.  Under every run of the program each bucket only grows at its
    end: the bucket before is a prefix of the bucket after, so samples
    keep their order, none is removed or replaced, and a bucket that holds
    a sample is never empty again. *)
Theorem buckets_grow (s : State) (es : list Event) :
  embeddingsA (vars s) `prefix_of` embeddingsA (vars (run s es).1) ∧
  embeddingsB (vars s) `prefix_of` embeddingsB (vars (run s es).1).
Proof.
  revert s. induction es as [|e es IH]; intros s; [done|].
  rewrite run_cons_state. destruct (IH (step s e).1) as [IHa IHb].
  split; (etrans; [|eassumption]).
  - rewrite step_embeddingsA. by apply prefix_app_r.
  - rewrite step_embeddingsB. by apply prefix_app_r.
Qed.

(** ** Training *)

(** C1.  With fewer than 10 samples in total the train handler shows the
    blocking message and returns: that alert is its only effect (no status
    text, no [fit] call) and the state it leaves is the state it found, so
    the classifier reference, both buckets and the calls in flight are
    untouched. *)
Theorem train_insufficient_data (s : State) :
  (length (embeddingsA (vars s)) + length (embeddingsB (vars s)) < 10)%nat →
  effects_of (trainBtn_onclick s) =
    [Alert "At least 10 total images needed (example: 5A + 5B)"] ∧
  state_after (trainBtn_onclick s) = s ∧
  classifierModel (vars (state_after (trainBtn_onclick s))) = classifierModel (vars s) ∧
  embeddingsA (vars (state_after (trainBtn_onclick s))) = embeddingsA (vars s) ∧
  embeddingsB (vars (state_after (trainBtn_onclick s))) = embeddingsB (vars s) ∧
  fits (host (state_after (trainBtn_onclick s))) = fits (host s) ∧
  filter is_status (effects_of (trainBtn_onclick s)) = [] ∧
  filter is_fit_started (effects_of (trainBtn_onclick s)) = [].
Proof.
  intros Hlt.
  assert (trainBtn_onclick s =
    (Normal (), s, [Alert "At least 10 total images needed (example: 5A + 5B)"]))
    as ->.
  { js_unfold; cbn. case_decide; [done | lia]. }
  done.
Qed.

Lemma oneHot_labels (nA nB : nat) :
  tf_oneHot (labels_of nA nB) 2 = replicate nA [1; 0]%nat ++ replicate nB [0; 1]%nat.
Proof.
  unfold tf_oneHot, labels_of. by rewrite fmap_app, !fmap_replicate.
Qed.

(** The state the train handler leaves when the check passes. *)
Lemma trainBtn_onclick_passes (s : State) :
  (10 ≤ length (embeddingsA (vars s)) + length (embeddingsB (vars s)))%nat →
  let r := length (heap (host s)) in
  let job := {| fit_xs := embeddingsA (vars s) ++ embeddingsB (vars s);
                fit_ys := replicate (length (embeddingsA (vars s))) [1; 0]%nat ++
                          replicate (length (embeddingsB (vars s))) [0; 1]%nat;
                fit_epochs := 25; fit_shuffle := true; fit_epoch := 0 |} in
  trainBtn_onclick s =
  (Normal (),
   {| vars := set_classifierModel (Some r) (vars s);
      page := set_statusEl_innerText "Training..."
                (set_trainBtn_disabled true (page s));
      host := set_fits (<[r := job]> (fits (host s)))
                (set_heap (heap (host s) ++ [buildModel D]) (host s)) |},
   [StatusText "Preparing training data..."; StatusText "Training...";
    FitStarted r]).
Proof.
  intros Hge. destruct s as [v p h]. cbn in Hge. js_unfold; cbn.
  case_decide; [lia|]. cbn. by rewrite oneHot_labels.
Qed.

(** C5.  When the check passes, the train handler makes [classifierModel]
    a new object built by [buildModel]: one dense layer of 128 relu units
    on the embedding, a dropout layer of rate 0.25 and a dense softmax
    layer of 2 units, in this order and nothing else; and it fits that
    object on the class-A samples followed by the class-B samples, labelled
    [1,0] for each class-A sample and [0,1] for each class-B sample. *)
Theorem train_builds_classifier (s : State) :
  (10 ≤ length (embeddingsA (vars s)) + length (embeddingsB (vars s)))%nat →
  let r := length (heap (host s)) in
  let s1 := state_after (trainBtn_onclick s) in
  classifierModel (vars s1) = Some r ∧
  heap (host s1) !! r = Some (buildModel D) ∧
  layers (buildModel D) =
    [dense 128 relu (Some [D]); dropout 0.25; dense 2 softmax None] ∧
  ∃ job, fits (host s1) !! r = Some job ∧
         fit_xs job = embeddingsA (vars s) ++ embeddingsB (vars s) ∧
         fit_ys job = ((λ _, [1; 0]%nat) <$> embeddingsA (vars s)) ++
                      ((λ _, [0; 1]%nat) <$> embeddingsB (vars s)).
Proof.
  intros Hge r s1. subst s1. rewrite trainBtn_onclick_passes by done.
  unfold state_after; cbn. split_and!; [done| |done|].
  - by apply list_lookup_middle.
  - eexists. rewrite lookup_insert_eq. split_and!; [done..|]. cbn.
    by rewrite !(const_fmap (λ _, _) _ _ (λ _ _ _, eq_refl)).
Qed.



(** ** Invariants of reachable states *)

Lemma refs_valid_initial (page0 : Page) : refs_valid (initial page0).
Proof. split; intros r; cbn; [done|]. rewrite lookup_empty. by intros []. Qed.

Lemma refs_valid_step (s : State) (e : Event) :
  refs_valid s → refs_valid (step s e).1.
Proof.
  destruct s as [v p h]. intros [Hc Hf]. cbn in Hc, Hf.
  destruct e; js_cases; (split; cbn; [intros r' Hr' | intros r' Hr']);
    simplify_eq/=; rewrite ?length_app, ?length_alter; cbn;
    try (apply lookup_insert_is_Some in Hr' as [<-|[_ Hr']]);
    try (apply lookup_delete_is_Some in Hr' as [_ Hr']);
    try (by auto); try (apply Hc in Hr'; lia); try (apply Hf in Hr'; lia);
    try lia.
  all: by apply Hf; eauto.
Qed.

Lemma single_fit_initial (page0 : Page) : single_fit (initial page0).
Proof. by left. Qed.

Lemma single_fit_step (s : State) (e : Event) :
  single_fit s → single_fit (step s e).1.
Proof.
  destruct s as [v p h]. unfold single_fit; cbn.
  intros [Hf | (Hd & r0 & job0 & Hf)];
    destruct e; js_cases; rewrite ?Hf in *;
    try (by left); try (by right; eauto).
  all: try (rewrite insert_empty; right; by eauto).
  all: try (rewrite delete_empty; by left).
  all: try match goal with
    | Hl : {[ _ := _ ]} !! _ = Some _ |- _ =>
        apply lookup_singleton_Some in Hl as [<- <-]
    | Hl : {[ _ := _ ]} !! _ = None |- _ =>
        apply lookup_singleton_None in Hl
    end.
  all: rewrite ?insert_singleton_eq, ?delete_singleton_eq;
    try (by left); try (by right; eauto).
  all: destruct (decide (r0 = model)) as [->|Hne];
    rewrite ?delete_singleton_eq, ?delete_singleton_ne by done;
    try (by left); by right; eauto.
Qed.

Lemma reachable_invariants (page0 : Page) (es : list Event) :
  refs_valid (run (initial page0) es).1 ∧ single_fit (run (initial page0) es).1.
Proof.
  split.
  - apply (run_invariant refs_valid (λ _, true)).
    + intros s e _. apply refs_valid_step.
    + by induction es.
    + apply refs_valid_initial.
  - apply (run_invariant single_fit (λ _, true)).
    + intros s e _. apply single_fit_step.
    + by induction es.
    + apply single_fit_initial.
Qed.



(** ** Clicks *)

Lemma click_enabled (disabled : Page → bool) (handler : Js unit) (s : State) :
  disabled (page s) = false → click disabled handler s = handler s.
Proof.
  intros Hd. unfold click, gets, mbind, js_mbind, js_bind. rewrite Hd.
  by destruct (handler s) as [[c s1] out].
Qed.

Lemma click_disabled (disabled : Page → bool) (handler : Js unit) (s : State) :
  disabled (page s) = true → click disabled handler s = (Normal (), s, []).
Proof.
  intros Hd. unfold click, gets, mbind, js_mbind, js_bind. by rewrite Hd.
Qed.

(** ** A training run that does not complete *)

Lemma training_unfinished_step (r : nat) (s : State) (e : Event) :
  not_resolved r e = true →
  training_unfinished r s → training_unfinished r (step s e).1.
Proof.
  destruct s as [v p h]. unfold training_unfinished; cbn.
  intros He (Hc & Hd & Hf & k & Hk).
  destruct e; js_cases; try (split_and!; by eauto).
  - (* an epoch of the fit in flight *)
    destruct (decide (model = r)) as [->|Hne];
      [|specialize (Hf _ Hne); congruence].
    split_and!; [done..| |].
    + intros r' Hr'. rewrite lookup_insert_ne by congruence. by apply Hf.
    + exists (S k). by rewrite list_lookup_alter_eq, Hk.
  - (* a resolution: of another model only *)
    apply negb_true_iff, bool_decide_eq_false in He.
    specialize (Hf _ He); congruence.
  - (* a rejection *)
    split_and!; [done..| |by eauto].
    intros r' Hr'. apply lookup_delete_None. auto.
Qed.

Lemma training_unfinished_run (r : nat) (es : list Event) (s : State) :
  forallb (not_resolved r) es = true →
  training_unfinished r s → training_unfinished r (run s es).1.
Proof.
  apply (run_invariant (training_unfinished r) (not_resolved r)).
  intros s' e. apply training_unfinished_step.
Qed.

(** ** A training run *)

Lemma effects_where_none (p : Event → bool) (es : list Event) (s : State) :
  filter p es = [] → effects_where p s es = [].
Proof.
  revert s. induction es as [|e es IH]; intros s Hf; [done|].
  rewrite filter_cons in Hf. cbn [effects_where].
  destruct (step s e) as [s1 out1].
  destruct (p e); cbn in Hf; [done|]. by apply IH.
Qed.

(** Events of other origin leave the [fit] on model [r] as it is. *)
Lemma step_foreign_fit (r : nat) (s : State) (e : Event) :
  is_fit_event r e = false →
  (r < length (heap (host s)))%nat →
  fits (host (step s e).1) !! r = fits (host s) !! r ∧
  (r < length (heap (host (step s e).1)))%nat.
Proof.
  destruct s as [v p h]. cbn. intros He Hr.
  destruct e; js_cases; rewrite ?length_app, ?length_alter;
    try (split; [done|lia]).
  - split; [|cbn; lia]. apply lookup_insert_ne. lia.
  - apply bool_decide_eq_false in He. split; [|done].
    by apply lookup_insert_ne.
  - apply bool_decide_eq_false in He. split; [|done].
    by apply lookup_delete_ne.
  - apply bool_decide_eq_false in He. split; [|done].
    by apply lookup_delete_ne.
Qed.

(** An epoch of a [fit] that has epochs left: one notification, with the
    index of that epoch, and the call moves on to the next epoch. *)
Lemma step_fit_epoch (r : nat) (s : State) (job : FitJob) (logs : Num * Num) :
  fits (host s) !! r = Some job →
  (fit_epoch job < fit_epochs job)%nat →
  (step s (FitEpochEnd r logs.1 logs.2)).2 =
    [StatusText (epoch_text (fit_epoch job) logs)] ∧
  (∃ job', fits (host (step s (FitEpochEnd r logs.1 logs.2)).1) !! r = Some job' ∧
           fit_epochs job' = fit_epochs job ∧
           fit_epoch job' = S (fit_epoch job)) ∧
  length (heap (host (step s (FitEpochEnd r logs.1 logs.2)).1)) =
    length (heap (host s)).
Proof.
  destruct s as [v p h], logs as [l a]. cbn. intros Hj Hlt.
  js_unfold; cbn. rewrite Hj. cbn. rewrite decide_True by done. cbn.
  split_and!; [done| |by rewrite length_alter].
  eexists. by rewrite lookup_insert_eq.
Qed.

(** There is no epoch beyond the last one. *)
Lemma step_fit_epoch_over (r : nat) (s : State) (job : FitJob) (loss acc : Num) :
  fits (host s) !! r = Some job →
  fit_epoch job = fit_epochs job →
  step s (FitEpochEnd r loss acc) = (s, []).
Proof.
  destruct s as [v p h]. cbn. intros Hj Heq.
  js_unfold; cbn. rewrite Hj. cbn. rewrite decide_False by lia. done.
Qed.

(** [fit] is fulfilled after its last epoch, and not before. *)
Lemma step_fit_resolved (r : nat) (s : State) (job : FitJob) :
  fits (host s) !! r = Some job →
  fit_epoch job = fit_epochs job →
  (step s (FitResolved r)).2 = [StatusText "Training Done! Start Prediction."] ∧
  fits (host (step s (FitResolved r)).1) !! r = None ∧
  trainBtn_disabled (page (step s (FitResolved r)).1) = false ∧
  startPredictBtn_disabled (page (step s (FitResolved r)).1) = false.
Proof.
  destruct s as [v p h]. cbn. intros Hj Heq.
  js_unfold; cbn. rewrite Hj. cbn. rewrite decide_True by done. cbn.
  by rewrite lookup_delete_eq.
Qed.

Lemma step_fit_resolved_early (r : nat) (s : State) (job : FitJob) :
  fits (host s) !! r = Some job →
  fit_epoch job ≠ fit_epochs job →
  step s (FitResolved r) = (s, []).
Proof.
  destruct s as [v p h]. cbn. intros Hj Hne.
  js_unfold; cbn. rewrite Hj. cbn. by rewrite decide_False.
Qed.



(** The notifications of a [fit] on model [r] that stands at epoch [k],
    over any run whose events for that [fit] are epochs with the logs
    [logs], followed by nothing ([final = false]) or by its fulfilment
    ([final = true]); all other events are arbitrary. *)
Lemma fit_progress (r : nat) (es : list Event) :
  ∀ (s : State) (job : FitJob) (logs : list (Num * Num)) (final : bool),
  fits (host s) !! r = Some job →
  fit_epochs job = 25%nat →
  (fit_epoch job ≤ 25)%nat →
  (r < length (heap (host s)))%nat →
  filter (is_fit_event r) es =
    fit_epoch_events r logs ++ (if final then [FitResolved r] else []) →
  effects_where (is_fit_event r) s es =
    epoch_notifications (fit_epoch job) (take (25 - fit_epoch job) logs) ++
    (if final && bool_decide (25 ≤ fit_epoch job + length logs)%nat
     then [StatusText "Training Done! Start Prediction."] else []).
Proof.
  induction es as [|e es IH]; intros s job logs final Hj He Hle Hr Hf.
  { symmetry in Hf. apply app_eq_nil in Hf as [Hl Hfin].
    apply fmap_nil_inv in Hl as ->. destruct final; [done|].
    by rewrite take_nil. }
  rewrite filter_cons in Hf. cbn [effects_where].
  destruct (step s e) as [s1 out1] eqn:Hstep.
  assert (Hs1 : s1 = (step s e).1) by by rewrite Hstep.
  assert (Hout : out1 = (step s e).2) by by rewrite Hstep.
  destruct (is_fit_event r e) eqn:Hev; cbn in Hf.
  - destruct logs as [|l logs]; cbn in Hf.
    + (* the fulfilment *)
      destruct final; [|done]. injection Hf as -> Hrest.
      rewrite (effects_where_none _ es s1 Hrest), app_nil_r, take_nil. cbn.
      rewrite Nat.add_0_r. subst out1.
      destruct (decide (fit_epoch job = 25%nat)) as [Hk|Hk].
      * rewrite bool_decide_eq_true_2 by lia.
        apply (step_fit_resolved r s job Hj). congruence.
      * rewrite bool_decide_eq_false_2 by lia.
        rewrite (step_fit_resolved_early r s job Hj); [done|congruence].
    + (* an epoch *)
      injection Hf as -> Hrest. cbn [length].
      destruct (decide (fit_epoch job < 25)%nat) as [Hk|Hk].
      * destruct (step_fit_epoch r s job l Hj) as (Ho & (job' & Hj' & He' & Hk') & Hlen);
          [lia|].
        rewrite <- Hs1 in Hj', Hlen. rewrite <- Hout in Ho. rewrite Ho.
        rewrite (IH s1 job' logs final Hj') by (done || lia).
        rewrite Hk'.
        replace (25 - fit_epoch job)%nat with (S (25 - S (fit_epoch job))) by lia.
        replace (fit_epoch job + S (length logs))%nat
          with (S (fit_epoch job) + length logs)%nat by lia.
        done.
      * assert (fit_epoch job = 25%nat) as Hk25 by lia.
        rewrite (step_fit_epoch_over r s job l.1 l.2 Hj) in Hstep by congruence.
        injection Hstep as <- <-.
        rewrite (IH s job logs final Hj) by done.
        rewrite Hk25, Nat.sub_diag, !take_0. cbn [epoch_notifications app].
        rewrite !(bool_decide_eq_true_2 (25 ≤ _)%nat) by lia. done.
  - destruct (step_foreign_fit r s e Hev Hr) as [Hj' Hr'].
    rewrite <- Hs1 in Hj', Hr'. rewrite Hj in Hj'.
    by apply IH.
Qed.

(** ** The live predictor *)

(** What the start handler leaves. *)
Lemma startPredictBtn_onclick_spec (s : State) :
  let id := S (timer_seq (host s)) in
  startPredictBtn_onclick s =
  (Normal (),
   {| vars := set_predictInterval (Some id) (vars s);
      page := set_statusEl_innerText "Predicting Live..."
                (set_stopPredictBtn_disabled false
                   (set_startPredictBtn_disabled true (page s)));
      host := set_timers (<[id := 300%nat]> (timers (host s))) id (host s) |},
   [StatusText "Predicting Live..."; IntervalSet id 300]).
Proof. by destruct s as [v p h]. Qed.

(** What the stop handler leaves. *)
Lemma stopPredictBtn_onclick_spec (s : State) :
  stopPredictBtn_onclick s =
  (Normal (),
   {| vars := set_predictInterval None (vars s);
      page := set_statusEl_innerText "Stopped."
                (set_stopPredictBtn_disabled true
                   (set_startPredictBtn_disabled false (page s)));
      host := match predictInterval (vars s) with
              | Some (S n) =>
                  set_timers (delete (S n) (timers (host s)))
                             (timer_seq (host s)) (host s)
              | _ => host s
              end |},
   match predictInterval (vars s) with
   | Some (S n) => [IntervalCleared (S n); StatusText "Stopped."]
   | _ => [StatusText "Stopped."]
   end).
Proof.
  destruct s as [v p h]. js_unfold; cbn.
  destruct (predictInterval v) as [[|n]|]; by destruct h.
Qed.

Lemma timers_tracked_step (s : State) (e : Event) :
  is_start e = false → timers_tracked s → timers_tracked (step s e).1.
Proof.
  intros He Ht. destruct e; try done.
  all: try (destruct s as [v p h]; unfold timers_tracked in *; cbn in *;
            js_cases; by auto).
  (* the stop button *)
  unfold step, dispatch. cbn [fst].
  destruct (stopPredictBtn_disabled (page s)) eqn:Hd.
  { by rewrite click_disabled. }
  rewrite click_enabled, stopPredictBtn_onclick_spec by done.
  unfold state_after, timers_tracked in *; cbn.
  intros id Hid. exfalso.
  destruct (predictInterval (vars s)) as [[|n]|] eqn:Hp; cbn in Hid.
  - apply Ht in Hid as [? ?]. simplify_eq. lia.
  - apply lookup_delete_is_Some in Hid as [Hne Hid].
    apply Ht in Hid as [? ?]. congruence.
  - by apply Ht in Hid as [? ?].
Qed.

Lemma timers_tracked_run (es : list Event) (s : State) :
  forallb (λ e, negb (is_start e)) es = true →
  timers_tracked s → timers_tracked (run s es).1.
Proof.
  apply (run_invariant timers_tracked (λ e, negb (is_start e))).
  intros s' e He. apply timers_tracked_step. by apply negb_true_iff.
Qed.

(** With no timer active and no start, no timer becomes active and no
    prediction cycle begins. *)
Lemma no_timers_step (s : State) (e : Event) :
  is_start e = false →
  timers (host s) = ∅ →
  timers (host (step s e).1) = ∅ ∧ filter is_cycle_begun (step s e).2 = [].
Proof.
  destruct s as [v p h]. cbn. intros He Ht.
  destruct e; try done; js_cases; rewrite ?Ht, ?delete_empty; try done.
  all: by rewrite Ht, lookup_empty in *.
Qed.

Lemma no_timers_run (es : list Event) (s : State) :
  forallb (λ e, negb (is_start e)) es = true →
  timers (host s) = ∅ →
  timers (host (run s es).1) = ∅ ∧ filter is_cycle_begun (run s es).2 = [].
Proof.
  revert s. induction es as [|e es IH]; intros s Hes Ht; [done|].
  cbn in Hes. apply andb_prop in Hes as [He Hes].
  apply negb_true_iff in He.
  destruct (no_timers_step s e He Ht) as [Ht1 Hc1].
  destruct (IH (step s e).1 Hes Ht1) as [Ht2 Hc2].
  rewrite run_cons. cbn [fst snd]. by rewrite filter_app, Hc1, Hc2.
Qed.



(** C7.  From a state with no active interval timer, the start handler
    makes the predictor Running on one timer of period 300.  Whatever
    happens next short of another start, the stop handler then makes the
    predictor Idle and leaves no timer active.  It does not touch the
    prediction cycles that are waiting for their data: each still
    completes and updates the bars.  From then on, short of another start,
    no timer is active and no prediction cycle begins, so none begins
    later than one period after the stop. *)
Theorem stop_ends_prediction_cycles (s : State) (es1 es2 : list Event) :
  let s1 := state_after (startPredictBtn_onclick s) in
  let s2 := (run s1 es1).1 in
  let s3 := state_after (stopPredictBtn_onclick s2) in
  timers (host s) = ∅ →
  forallb (λ e, negb (is_start e)) es1 = true →
  forallb (λ e, negb (is_start e)) es2 = true →
  predictor s1 = Running ∧
  timers (host s1) = {[ S (timer_seq (host s)) := 300%nat ]} ∧
  predictor s3 = Idle ∧
  timers (host s3) = ∅ ∧
  cycles (host s3) = cycles (host s2) ∧
  (∀ k data, cycles (host s3) !! k = Some data →
     (step s3 (PredictionData k)).2 = [BarsUpdated data.1 data.2]) ∧
  (∀ id canvas, step s3 (IntervalFired id canvas) = (s3, [])) ∧
  timers (host (run s3 es2).1) = ∅ ∧
  filter is_cycle_begun (run s3 es2).2 = [].
Proof.
  intros s1 s2 s3 Ht Hes1 Hes2.
  assert (Hs1 : timers (host s1) = {[ S (timer_seq (host s)) := 300%nat ]} ∧
                predictInterval (vars s1) = Some (S (timer_seq (host s)))).
  { subst s1. rewrite startPredictBtn_onclick_spec. unfold state_after; cbn.
    by rewrite Ht, insert_empty. }
  destruct Hs1 as [Hs1t Hs1p].
  assert (Htr1 : timers_tracked s1).
  { intros id Hid. rewrite Hs1t in Hid.
    destruct Hid as [ms Hid]. apply lookup_singleton_Some in Hid as [<- _].
    split; [done|lia]. }
  assert (Htr2 : timers_tracked s2) by by apply timers_tracked_run.
  clearbody s2. clearbody s1.
  assert (Hs3 : timers (host s3) = ∅ ∧ predictInterval (vars s3) = None ∧
                cycles (host s3) = cycles (host s2)).
  { subst s3. rewrite stopPredictBtn_onclick_spec. unfold state_after; cbn.
    split_and!; [|done|by repeat case_match].
    apply map_empty. intros id. apply eq_None_not_Some. intros Hid.
    destruct (predictInterval (vars s2)) as [[|n]|] eqn:Hp; cbn in Hid.
    - apply Htr2 in Hid as [? ?]. simplify_eq. lia.
    - apply lookup_delete_is_Some in Hid as [Hne Hid].
      apply Htr2 in Hid as [? ?]. congruence.
    - apply Htr2 in Hid as [? ?]. congruence. }
  destruct Hs3 as (Hs3t & Hs3p & Hs3c).
  clearbody s3.
  split_and!; try done.
  - unfold predictor. by rewrite Hs1p.
  - unfold predictor. by rewrite Hs3p.
  - intros k [pA pB] Hk. destruct s3 as [v p h]. cbn in Hk.
    js_unfold; cbn. by rewrite Hk.
  - intros id canvas. destruct s3 as [v p h]. cbn in Hs3t.
    js_unfold; cbn. by rewrite Hs3t, lookup_empty.
  - by apply no_timers_run.
  - by apply no_timers_run.
Qed.

(** C10.  When [predictInterval] is null the stop handler cancels no
    timer: its only effect is the status text, and the variables and the
    host's state (timers, cycles in flight) are as they were, with the
    predictor Idle before and after.  In every state, running the stop
    handler a second time leaves the state the first run left. *)
Theorem stop_idempotent (s : State) :
  (predictInterval (vars s) = None →
     effects_of (stopPredictBtn_onclick s) = [StatusText "Stopped."] ∧
     vars (state_after (stopPredictBtn_onclick s)) = vars s ∧
     host (state_after (stopPredictBtn_onclick s)) = host s ∧
     predictor s = Idle ∧
     predictor (state_after (stopPredictBtn_onclick s)) = Idle) ∧
  state_after (stopPredictBtn_onclick (state_after (stopPredictBtn_onclick s))) =
    state_after (stopPredictBtn_onclick s) ∧
  effects_of (stopPredictBtn_onclick (state_after (stopPredictBtn_onclick s))) =
    [StatusText "Stopped."].
Proof.
  rewrite !stopPredictBtn_onclick_spec.
  unfold state_after, effects_of, predictor; cbn.
  split; [|done].
  intros Hp. rewrite Hp. split_and!; try done.
  destruct s as [v p h]; cbn in *. destruct v; cbn in *. by subst.
Qed.

(** C3 (the program run on the failing input).  Ten samples, a training
    run, a click on start: the predictor is Running on timer 1 and the
    start button is disabled.  A second training run, while the predictor
    is Running, enables the start button again when it completes, and the
    next click on start is not ignored: it sets a second timer and makes
    [predictInterval] forget the first, which a later click on stop cannot
    cancel any more. *)
Theorem start_while_running_sets_second_timer
    (net : MobileNet) (canvas : Frame) (logs : Num * Num) :
  let s := (run (initial page_at_load)
              (ten_samples net canvas ++ full_training 0 logs ++
               [ClickStartPredict] ++ full_training 1 logs)).1 in
  predictor s = Running ∧
  classifierModel (vars s) = Some 1%nat ∧
  timers (host s) = {[ 1%nat := 300%nat ]} ∧
  startPredictBtn_disabled (page s) = false ∧
  (step s ClickStartPredict).2 =
    [StatusText "Predicting Live..."; IntervalSet 2 300] ∧
  predictInterval (vars (step s ClickStartPredict).1) = Some 2%nat ∧
  timers (host (step s ClickStartPredict).1) =
    {[ 1%nat := 300%nat; 2%nat := 300%nat ]} ∧
  predictor (run s [ClickStartPredict; ClickStopPredict]).1 = Idle ∧
  timers (host (run s [ClickStartPredict; ClickStopPredict]).1) =
    {[ 1%nat := 300%nat ]}.
Proof. vm_compute. split_and!; reflexivity. Qed.


(** ** Thumbnails and samples *)

Lemma step_galleryA (s : State) (e : Event) :
  galleryA_children (page (step s e).1) =
  galleryA_children (page s) ++
    match e with ClickCaptureA canvas => [toDataURL canvas] | _ => [] end.
Proof.
  destruct s as [v p h]. destruct e; js_cases; by rewrite ?app_nil_r.
Qed.

Lemma step_galleryB (s : State) (e : Event) :
  galleryB_children (page (step s e).1) =
  galleryB_children (page s) ++
    match e with ClickCaptureB canvas => [toDataURL canvas] | _ => [] end.
Proof.
  destruct s as [v p h]. destruct e; js_cases; by rewrite ?app_nil_r.
Qed.

(** X1.  Every click on a capture button adds one thumbnail to the
    gallery of its class, whether or not the embedding succeeds, and at
    most one sample to its bucket: over any run the galleries grow by the
    number of capture clicks and the buckets by no more. *)
Theorem thumbnails_count_clicks (s : State) (es : list Event) :
  length (galleryA_children (page (run s es).1)) =
    (length (galleryA_children (page s)) + count_events is_captureA es)%nat ∧
  length (galleryB_children (page (run s es).1)) =
    (length (galleryB_children (page s)) + count_events is_captureB es)%nat ∧
  (length (embeddingsA (vars (run s es).1)) ≤
     length (embeddingsA (vars s)) + count_events is_captureA es)%nat ∧
  (length (embeddingsB (vars (run s es).1)) ≤
     length (embeddingsB (vars s)) + count_events is_captureB es)%nat.
Proof.
  revert s. induction es as [|e es IH]; intros s.
  { cbn. split_and!; lia. }
  rewrite run_cons_state. destruct (IH (step s e).1) as (Ha & Hb & Hc & Hd).
  rewrite Ha, Hb. rewrite step_galleryA, step_galleryB, !length_app.
  rewrite step_embeddingsA, !length_app in Hc.
  rewrite step_embeddingsB, !length_app in Hd.
  cbn [count_events].
  split_and!; destruct e; cbn in *; repeat case_match; cbn in *; lia.
Qed.

(** X2.  A capture while [mobilenetModel] is not assigned ends in an
    exception after the thumbnail has been added: the gallery and the large
    thumbnail change, nothing else does (no sample, no status text, no
    effect). *)
Theorem capture_without_extractor (s : State) (canvas : Frame) :
  mobilenetModel (vars s) = None →
  captureA_onclick canvas s =
    (Thrown,
     with_page (λ p, set_galleryA (galleryA_children p ++ [toDataURL canvas])
                                  (toDataURL canvas) p) s,
     []) ∧
  captureB_onclick canvas s =
    (Thrown,
     with_page (λ p, set_galleryB (galleryB_children p ++ [toDataURL canvas])
                                  (toDataURL canvas) p) s,
     []).
Proof.
  intros Hm. destruct s as [v p h]. cbn in Hm.
  split; js_unfold; cbn; by rewrite Hm.
Qed.

Lemma thumbs_latest_step (s : State) (e : Event) :
  (thumbA_latest s ∨ is_captureA e = true → thumbA_latest (step s e).1) ∧
  (thumbB_latest s ∨ is_captureB e = true → thumbB_latest (step s e).1).
Proof.
  destruct s as [v p h]. unfold thumbA_latest, thumbB_latest.
  split; (intros [Hl | He]; destruct e; try done; cbn in *;
    js_cases; by rewrite ?last_snoc).
Qed.

Lemma thumbs_latest_run (es : list Event) (s : State) :
  (thumbA_latest s → thumbA_latest (run s es).1) ∧
  (thumbB_latest s → thumbB_latest (run s es).1).
Proof.
  revert s. induction es as [|e es IH]; intros s; [done|].
  rewrite run_cons_state.
  destruct (IH (step s e).1) as [IHa IHb], (thumbs_latest_step s e) as [Ha Hb].
  split; intros Hs; [apply IHa, Ha | apply IHb, Hb]; by left.
Qed.

(** X3.  Once a class has been captured at least once in a run, its large
    thumbnail shows the image added last to its gallery, whatever else has
    happened since. *)
Theorem thumb_shows_latest_capture (s : State) (es : list Event) :
  ((0 < count_events is_captureA es)%nat → thumbA_latest (run s es).1) ∧
  ((0 < count_events is_captureB es)%nat → thumbB_latest (run s es).1).
Proof.
  revert s. induction es as [|e es IH]; intros s.
  { cbn. split; lia. }
  rewrite run_cons_state. cbn [count_events].
  destruct (IH (step s e).1) as [IHa IHb].
  destruct (thumbs_latest_step s e) as [Ha Hb].
  destruct (thumbs_latest_run es (step s e).1) as [Ra Rb].
  split; intros Hc.
  - destruct (is_captureA e) eqn:He; [apply Ra, Ha; by right | by apply IHa].
  - destruct (is_captureB e) eqn:He; [apply Rb, Hb; by right | by apply IHb].
Qed.

(** ** Initialisation *)

Lemma init_gate_initial (page0 : Page) : init_gate (initial page0).
Proof.
  split; cbn; [|done]. split; [by intros [? ?]|done].
Qed.

Lemma init_gate_step (s : State) (e : Event) :
  init_gate s → init_gate (step s e).1.
Proof.
  destruct s as [v p h]. destruct v, h. unfold init_gate; cbn.
  intros [[H1 H2] Hn].
  destruct e; js_cases;
    (split; [split; (try done); (try by eauto);
             try (intros [? ?]; by auto) |]);
    try (by intros ?; simplify_eq);
    try (by auto).
  all: try (intros Hs; by specialize (H1 Hs)).
  all: intros Hm; destruct (Hn Hm) as (-> & -> & -> & ->);
    rewrite ?delete_empty; try done.
  all: cbn in *; try lia; by rewrite ?lookup_empty in *.
Qed.

Lemma camera_pending_step (s : State) (e : Event) :
  is_webcam_ready e = false → camera_pending s → camera_pending (step s e).1.
Proof.
  destruct s as [v p h]. destruct v, h. unfold camera_pending; cbn.
  intros He (? & ? & ? & ? & ? & ?). simplify_eq/=.
  destruct e; try done; js_cases; try done; try lia.
Qed.

Lemma reachable_init_gate (page0 : Page) (es : list Event) :
  init_gate (run (initial page0) es).1.
Proof.
  apply (run_invariant init_gate (λ _, true)).
  - intros s e _. apply init_gate_step.
  - by induction es.
  - apply init_gate_initial.
Qed.

(** X4.  In every state the program can reach, [mobilenetModel] is
    assigned exactly when [init] has run to its end, and as long as it is
    not assigned both buckets are empty, there is no classifier and no
    [fit] is in flight. *)
Theorem nothing_before_extractor (page0 : Page) (es : list Event) :
  let s := (run (initial page0) es).1 in
  (is_Some (mobilenetModel (vars s)) ↔ init_stage (host s) = InitDone) ∧
  (mobilenetModel (vars s) = None →
     counts s = (0, 0)%nat ∧ classifierModel (vars s) = None ∧
     fits (host s) = ∅).
Proof.
  intros s. destruct (reachable_init_gate page0 es) as [Hiff Hn]. fold s in Hiff, Hn.
  split; [done|]. intros Hm. destruct (Hn Hm) as (Ha & Hb & Hc & Hf).
  unfold counts. by rewrite Ha, Hb.
Qed.

(** X5.  If the camera never becomes ready, [init] never loads MobileNet:
    whatever the user clicks, no sample is stored and no classifier is
    built, and the train handler can only show its alert. *)
Theorem no_camera_no_training (page0 : Page) (es : list Event) :
  let s := (run (initial page0) es).1 in
  forallb (λ e, negb (is_webcam_ready e)) es = true →
  mobilenetModel (vars s) = None ∧
  counts s = (0, 0)%nat ∧
  classifierModel (vars s) = None ∧
  effects_of (trainBtn_onclick s) =
    [Alert "At least 10 total images needed (example: 5A + 5B)"].
Proof.
  intros s Hes.
  assert (Hp : camera_pending s).
  { apply (run_invariant camera_pending (λ e, negb (is_webcam_ready e))); [|done..].
    intros s' e He. apply camera_pending_step. by apply negb_true_iff. }
  clearbody s. destruct Hp as (_ & Hm & Ha & Hb & Hc & _).
  split_and!; [done| |done|].
  - unfold counts. by rewrite Ha, Hb.
  - destruct s as [v p h]. cbn in *. js_unfold; cbn. by rewrite Ha, Hb.
Qed.

(** ** A rejected training run *)

Lemma train_locked_step (s : State) (e : Event) :
  train_locked s →
  train_locked (step s e).1 ∧
  classifierModel (vars (step s e).1) = classifierModel (vars s) ∧
  heap (host (step s e).1) = heap (host s) ∧
  filter is_fit_started (step s e).2 = [].
Proof.
  destruct s as [v p h]. destruct h. unfold train_locked; cbn.
  intros [Hd ->].
  destruct e; js_cases; rewrite ?delete_empty; try done.
  all: by rewrite lookup_empty in *.
Qed.

Lemma train_locked_run (es : list Event) (s : State) :
  train_locked s →
  train_locked (run s es).1 ∧
  classifierModel (vars (run s es).1) = classifierModel (vars s) ∧
  heap (host (run s es).1) = heap (host s) ∧
  filter is_fit_started (run s es).2 = [].
Proof.
  revert s. induction es as [|e es IH]; intros s Hl; [done|].
  destruct (train_locked_step s e Hl) as (Hl1 & Hc1 & Hh1 & Hf1).
  destruct (IH (step s e).1 Hl1) as (Hl2 & Hc2 & Hh2 & Hf2).
  rewrite run_cons. cbn [fst snd].
  rewrite filter_app, Hf1, Hf2, Hc2, Hc1, Hh2, Hh1. done.
Qed.

(** X6.  When the [fit] started by a click on train is rejected, the rest
    of the train handler never runs and nothing else enables the train
    button again: for the rest of the session the button stays disabled,
    no other training starts, and [classifierModel] stays the model of the
    rejected run, with the heap as the rejection left it. *)
Theorem rejected_training_locks_train_button
    (page0 : Page) (es0 es1 es2 : list Event) :
  let s := (run (initial page0) es0).1 in
  let r := length (heap (host s)) in
  let s1 := (step s ClickTrain).1 in
  let s2 := (run s1 (es1 ++ [FitRejected r])).1 in
  trainBtn_disabled (page s) = false →
  (10 ≤ length (embeddingsA (vars s)) + length (embeddingsB (vars s)))%nat →
  forallb (not_resolved r) es1 = true →
  trainBtn_disabled (page (run s2 es2).1) = true ∧
  classifierModel (vars (run s2 es2).1) = Some r ∧
  heap (host (run s2 es2).1) = heap (host s2) ∧
  filter is_fit_started (run s2 es2).2 = [].
Proof.
  intros s r s1 s2 Hen Hge Hes.
  destruct (reachable_invariants page0 es0) as [_ Hsingle].
  fold s in Hsingle. clearbody s.
  assert (Hfits : fits (host s) = ∅).
  { destruct Hsingle as [?|[? _]]; [done|congruence]. }
  assert (Hs1 : s1 = state_after (trainBtn_onclick s)).
  { subst s1. unfold step, dispatch. by rewrite click_enabled. }
  clearbody s1. rewrite trainBtn_onclick_passes in Hs1 by done.
  unfold state_after in Hs1; cbn in Hs1. fold r in Hs1.
  assert (Hun : training_unfinished r s1).
  { rewrite Hs1. split_and!; cbn; [done..| |].
    - intros r' Hr'. rewrite lookup_insert_ne by congruence.
      by rewrite Hfits, lookup_empty.
    - exists 0%nat. by apply list_lookup_middle. }
  assert (Hun2 : training_unfinished r s2 ∧ fits (host s2) !! r = None).
  { subst s2. rewrite run_app. cbn [fst].
    pose proof (training_unfinished_run r es1 s1 Hes Hun) as Hun1.
    set (s1' := (run s1 es1).1) in *. clearbody s1'.
    split.
    - by apply (training_unfinished_run r [FitRejected r] s1').
    - destruct s1' as [v p h]. cbn. apply lookup_delete_eq. }
  clearbody s2. destruct Hun2 as [(Hc & Hd & Hf & _) Hr].
  assert (Hl : train_locked s2).
  { split; [done|]. apply map_empty. intros r'.
    destruct (decide (r' = r)) as [->|Hne]; [done|by apply Hf]. }
  destruct (train_locked_run es2 s2 Hl) as ([Hd' _] & Hc' & Hh' & Hf').
  by rewrite Hc'.
Qed.

(** ** Timers *)

Lemma timer_orphaned_step (id ms : nat) (s : State) (e : Event) :
  timer_orphaned id ms s → timer_orphaned id ms (step s e).1.
Proof.
  destruct s as [v p h]. unfold timer_orphaned; cbn.
  intros (Ht & Hp & Hle).
  destruct e; js_cases; try done.
  - (* start *)
    split_and!; [|intros ?; simplify_eq; lia|lia].
    rewrite lookup_insert_ne by lia. done.
  - (* stop, with a handle to clear *)
    split_and!; [|done..].
    rewrite lookup_delete_ne by congruence. done.
Qed.

(** X7.  An active timer that [predictInterval] does not refer to is
    never cancelled: no sequence of clicks and other events removes it, a
    later start or stop does not pick it up again, and each of its firings
    still begins a prediction cycle. *)
Theorem orphaned_timer_never_cancelled
    (id ms : nat) (s : State) (es : list Event) (canvas : Frame) :
  timer_orphaned id ms s →
  timer_orphaned id ms (run s es).1 ∧
  head (step (run s es).1 (IntervalFired id canvas)).2 = Some (CycleBegun id).
Proof.
  intros Ho.
  assert (Ho' : timer_orphaned id ms (run s es).1).
  { apply (run_invariant (timer_orphaned id ms) (λ _, true)); [|by induction es|done].
    intros s' e _. apply timer_orphaned_step. }
  split; [done|].
  destruct (run s es).1 as [v p h]. destruct Ho' as (Ht & _). cbn in Ht.
  js_unfold; cbn. rewrite Ht. cbn.
  destruct (mobilenetModel v); cbn; [|done].
  destruct (classifierModel v) as [r|]; cbn; [|done].
  by destruct (heap h !! r).
Qed.

(** A timer that fires while the extractor or the classifier is missing:
    the frame is drawn on the preview canvas, then the callback ends in an
    exception. *)
Lemma interval_fired_throws (s : State) (id : nat) (canvas : Frame) :
  is_Some (timers (host s) !! id) →
  mobilenetModel (vars s) = None ∨ classifierModel (vars s) = None →
  step s (IntervalFired id canvas) =
    (with_page (set_previewCanvas (Some canvas)) s, [CycleBegun id]).
Proof.
  destruct s as [v p h]. cbn. intros [ms Ht] Hnone.
  js_unfold; cbn. rewrite Ht. cbn.
  destruct Hnone as [Hm | Hc].
  - by rewrite Hm.
  - destruct (mobilenetModel v); cbn; by rewrite ?Hc.
Qed.

(** X8.  A timer that is not active does nothing when it fires.  An active
    timer that fires while [mobilenetModel] or [classifierModel] is not
    assigned begins a cycle, draws the frame on the preview canvas and
    then fails: no prediction is awaited, the bars are not touched and
    nothing else changes. *)
Theorem prediction_cycle_without_models (s : State) (id : nat) (canvas : Frame) :
  (timers (host s) !! id = None →
     step s (IntervalFired id canvas) = (s, [])) ∧
  (is_Some (timers (host s) !! id) →
   mobilenetModel (vars s) = None ∨ classifierModel (vars s) = None →
     step s (IntervalFired id canvas) =
       (with_page (set_previewCanvas (Some canvas)) s, [CycleBegun id]) ∧
     cycles (host (step s (IntervalFired id canvas)).1) = cycles (host s) ∧
     bars (step s (IntervalFired id canvas)).1 = bars s).
Proof.
  split.
  - destruct s as [v p h]. cbn. intros Ht. js_unfold; cbn. by rewrite Ht.
  - intros Ht Hnone. rewrite (interval_fired_throws s id canvas Ht Hnone).
    by destruct s as [v p h].
Qed.

Lemma forallb_any (es : list Event) : forallb (λ _, true) es = true.
Proof. by induction es. Qed.

Lemma predictor_guarded_step (s : State) (e : Event) :
  predictor_guarded s → predictor_guarded (step s e).1.
Proof.
  destruct s as [v p h]. unfold predictor_guarded; cbn.
  intros (Hstart & Hstop & Ht & Hf).
  destruct e; js_cases; split_and!; try done; try (by eauto).
  all: try (intros; by eauto).
  all: intros x Hx;
    try (apply lookup_insert_is_Some in Hx as [<-|[_ Hx]]);
    try (apply lookup_delete_is_Some in Hx as [_ Hx]);
    by eauto.
Qed.

(** The synchronous part of a prediction cycle when both models exist. *)
Lemma interval_fired_predicts
    (s : State) (id : nat) (canvas : Frame)
    (net : MobileNet) (r : nat) (m : Sequential) :
  is_Some (timers (host s) !! id) →
  mobilenetModel (vars s) = Some net →
  classifierModel (vars s) = Some r →
  heap (host s) !! r = Some m →
  (step s (IntervalFired id canvas)).2 = [CycleBegun id] ∧
  cycles (host (step s (IntervalFired id canvas)).1) =
    cycles (host s) ++ [predict m (infer_global_average net canvas)].
Proof.
  destruct s as [v p h]. cbn. intros [ms Ht] Hm Hc Hh.
  js_unfold; cbn. rewrite Ht. cbn. rewrite Hm. cbn. rewrite Hc. cbn.
  by rewrite Hh.
Qed.

(** X9.  On a page that loads with the start and stop buttons disabled,
    a prediction timer is only ever active when MobileNet is loaded and a
    classifier exists: every firing of an active timer runs the classifier
    on the embedding of the current frame and awaits its data; none ends
    in an exception. *)
Theorem every_cycle_finds_its_models
    (page0 : Page) (es : list Event) (id : nat) (canvas : Frame) :
  let s := (run (initial page0) es).1 in
  startPredictBtn_disabled page0 = true →
  stopPredictBtn_disabled page0 = true →
  is_Some (timers (host s) !! id) →
  ∃ net r m,
    mobilenetModel (vars s) = Some net ∧
    classifierModel (vars s) = Some r ∧
    heap (host s) !! r = Some m ∧
    (step s (IntervalFired id canvas)).2 = [CycleBegun id] ∧
    cycles (host (step s (IntervalFired id canvas)).1) =
      cycles (host s) ++ [predict m (infer_global_average net canvas)].
Proof.
  intros s Hstart Hstop Hid.
  assert (Hg : predictor_guarded s).
  { apply (run_invariant predictor_guarded (λ _, true)); [|apply forallb_any|].
    - intros s' e _. apply predictor_guarded_step.
    - split_and!; cbn; try congruence; intros x; rewrite lookup_empty;
        by intros [? ?]. }
  destruct (reachable_init_gate page0 es) as [_ Hn].
  destruct (reachable_invariants page0 es) as [[Hc _] _].
  fold s in Hn, Hc. clearbody s.
  destruct Hg as (_ & _ & Ht & _). destruct (Ht id Hid) as [r Hr].
  destruct (mobilenetModel (vars s)) as [net|] eqn:Hm.
  2: { destruct (Hn eq_refl) as (_ & _ & ? & _). congruence. }
  destruct (lookup_lt_is_Some_2 (heap (host s)) r (Hc r Hr)) as [m Hh].
  exists net, r, m. split_and!; [done..| |];
    by apply (interval_fired_predicts s id canvas net r m).
Qed.

(** ** The bars *)

Lemma bars_step (s : State) (e : Event) :
  is_prediction_data e = false → bars (step s e).1 = bars s.
Proof.
  destruct s as [v p h]. unfold bars; cbn.
  intros He; destruct e; try done; js_cases; done.
Qed.

Lemma bars_run (es : list Event) (s : State) :
  forallb (λ e, negb (is_prediction_data e)) es = true →
  bars (run s es).1 = bars s.
Proof.
  revert s. induction es as [|e es IH]; intros s Hes; [done|].
  cbn in Hes. apply andb_prop in Hes as [He Hes]. apply negb_true_iff in He.
  rewrite run_cons_state, IH by done. by apply bars_step.
Qed.

(** What the completion of a prediction cycle writes. *)
Lemma prediction_data_bars (s : State) (k : nat) (pA pB : Num) :
  cycles (host s) !! k = Some (pA, pB) →
  bars (step s (PredictionData k)).1 =
    (default (barA_width (page s)) (css_width (toFixed (times100 pA) 2 +:+ "%")),
     default (barB_width (page s)) (css_width (toFixed (times100 pB) 2 +:+ "%")),
     toFixed (times100 pA) 2 +:+ "%",
     toFixed (times100 pB) 2 +:+ "%").
Proof.
  destruct s as [v p h]. cbn. intros Hk.
  js_unfold; cbn. by rewrite Hk.
Qed.

(** X10.  The bars and their labels change only when a prediction cycle
    completes.  Over any run without a completion (training, captures,
    start, stop, timer firings) they keep what they showed.  A completion
    with the probabilities [pA] and [pB] writes [(p * 100).toFixed(2)]
    followed by ["%"] to each label and assigns the same string to the
    width of each bar, which the page keeps in serialised form, or leaves
    as it was when it does not accept the string; and that is what all
    four still show after any run without a further completion, for
    instance after stop. *)
Theorem bars_change_only_on_prediction (s : State) (es : list Event) :
  forallb (λ e, negb (is_prediction_data e)) es = true →
  bars (run s es).1 = bars s ∧
  ∀ k pA pB, cycles (host s) !! k = Some (pA, pB) →
    bars (run (step s (PredictionData k)).1 es).1 =
      (default (barA_width (page s)) (css_width (toFixed (times100 pA) 2 +:+ "%")),
       default (barB_width (page s)) (css_width (toFixed (times100 pB) 2 +:+ "%")),
       toFixed (times100 pA) 2 +:+ "%",
       toFixed (times100 pB) 2 +:+ "%").
Proof.
  intros Hes. split; [by apply bars_run|].
  intros k pA pB Hk. rewrite bars_run by done. by apply prediction_data_bars.
Qed.

(** ** Models on the heap *)

Lemma iter_fit_fields (k : nat) (m : Sequential) :
  layers (Nat.iter k fit_one_epoch m) = layers m ∧
  compiled (Nat.iter k fit_one_epoch m) = compiled m ∧
  epochs_fitted (Nat.iter k fit_one_epoch m) = (k + epochs_fitted m)%nat.
Proof.
  induction k as [|k (Hl & Hc & He)]; [done|].
  change (Nat.iter (S k) fit_one_epoch m)
    with (fit_one_epoch (Nat.iter k fit_one_epoch m)).
  destruct (Nat.iter k fit_one_epoch m); cbn in *. split_and!; congruence.
Qed.

(** The state after one epoch of a [fit] that has epochs left. *)
Lemma step_fit_epoch_state
    (r : nat) (s : State) (job : FitJob) (loss acc : Num) :
  fits (host s) !! r = Some job →
  (fit_epoch job < fit_epochs job)%nat →
  vars (step s (FitEpochEnd r loss acc)).1 = vars s ∧
  timers (host (step s (FitEpochEnd r loss acc)).1) = timers (host s) ∧
  heap (host (step s (FitEpochEnd r loss acc)).1) =
    alter fit_one_epoch r (heap (host s)) ∧
  ∃ job', fits (host (step s (FitEpochEnd r loss acc)).1) !! r = Some job' ∧
          fit_epochs job' = fit_epochs job ∧
          fit_epoch job' = S (fit_epoch job).
Proof.
  destruct s as [v p h]. cbn. intros Hj Hlt.
  js_unfold; cbn. rewrite Hj. cbn. rewrite decide_True by done. cbn.
  split_and!; [done..|]. eexists. by rewrite lookup_insert_eq.
Qed.

Lemma fit_epochs_run (r : nat) (logs : list (Num * Num)) :
  ∀ (s : State) (job : FitJob) (m : Sequential),
  fits (host s) !! r = Some job →
  fit_epochs job = 25%nat →
  (fit_epoch job + length logs ≤ 25)%nat →
  heap (host s) !! r = Some m →
  vars (run s (fit_epoch_events r logs)).1 = vars s ∧
  timers (host (run s (fit_epoch_events r logs)).1) = timers (host s) ∧
  heap (host (run s (fit_epoch_events r logs)).1) !! r =
    Some (Nat.iter (length logs) fit_one_epoch m).
Proof.
  induction logs as [|[loss acc] logs IH]; intros s job m Hj He Hle Hm; [done|].
  cbn [fit_epoch_events fmap list_fmap fst snd length] in *.
  rewrite run_cons_state.
  destruct (step_fit_epoch_state r s job loss acc Hj) as (Hv & Ht & Hh & job' & Hj' & He' & Hk');
    [lia|].
  destruct (IH (step s (FitEpochEnd r loss acc)).1 job' (fit_one_epoch m))
    as (Hv2 & Ht2 & Hh2); [done|congruence|lia| |].
  - by rewrite Hh, list_lookup_alter_eq, Hm.
  - fold (fit_epoch_events r logs). rewrite Hv2, Ht2, Hh2, Hv, Ht.
    by rewrite Nat.iter_succ_r.
Qed.

(** X12.  [classifierModel] refers to the very object that [fit] updates.
    When train is clicked while a prediction timer is active, a timer
    firing after [n] epochs of the new run classifies with the new model
    as fitted for those [n] epochs; the classifier of the previous run is
    no longer used, from the first epoch on. *)
Theorem retraining_predicts_with_partial_model
    (s : State) (logs : list (Num * Num)) (id : nat) (canvas : Frame)
    (net : MobileNet) :
  let r := length (heap (host s)) in
  let s1 := state_after (trainBtn_onclick s) in
  let s2 := (run s1 (fit_epoch_events r logs)).1 in
  (10 ≤ length (embeddingsA (vars s)) + length (embeddingsB (vars s)))%nat →
  mobilenetModel (vars s) = Some net →
  is_Some (timers (host s) !! id) →
  (length logs ≤ 25)%nat →
  cycles (host (step s2 (IntervalFired id canvas)).1) =
    cycles (host s2) ++
    [predict (Nat.iter (length logs) fit_one_epoch (buildModel D))
             (infer_global_average net canvas)].
Proof.
  intros r s1 s2 Hge Hm Hid Hlen.
  assert (Hs1 : s1 = state_after (trainBtn_onclick s)) by done.
  clearbody s1. rewrite trainBtn_onclick_passes in Hs1 by done.
  unfold state_after in Hs1; cbn in Hs1. fold r in Hs1.
  assert (Hj : fits (host s1) !! r = Some
            {| fit_xs := embeddingsA (vars s) ++ embeddingsB (vars s);
               fit_ys := replicate (length (embeddingsA (vars s))) [1; 0]%nat ++
                         replicate (length (embeddingsB (vars s))) [0; 1]%nat;
               fit_epochs := 25; fit_shuffle := true; fit_epoch := 0 |}).
  { rewrite Hs1. cbn. by rewrite lookup_insert_eq. }
  assert (Hh : heap (host s1) !! r = Some (buildModel D)).
  { rewrite Hs1. cbn. by apply list_lookup_middle. }
  destruct (fit_epochs_run r logs s1 _ _ Hj eq_refl Hlen Hh) as (Hv & Ht & Hh2).
  fold s2 in Hv, Ht, Hh2. clearbody s2.
  apply (interval_fired_predicts s2 id canvas net r).
  - rewrite Ht, Hs1. by destruct s as [v p h].
  - rewrite Hv, Hs1. by destruct s as [v p h].
  - rewrite Hv, Hs1. done.
  - done.
Qed.

Lemma models_fitted_step (s : State) (e : Event) :
  models_fitted s → models_fitted (step s e).1.
Proof.
  destruct s as [v p h]. unfold models_fitted; cbn. intros Hinv.
  destruct e; js_cases; try done.
  - (* a click on train that passes the check *)
    intros r m Hm. apply lookup_app_Some in Hm as [Hm | [Hge Hm]].
    + destruct (Hinv r m Hm) as [Hk Hjob]. split; [done|].
      intros job. apply lookup_lt_Some in Hm.
      rewrite lookup_insert_ne by lia. apply Hjob.
    + apply list_lookup_singleton_Some in Hm as [Hr <-].
      replace r with (length (heap h)) by lia.
      split; [exists 0%nat; split; [lia|done]|].
      intros job. rewrite lookup_insert_eq. by intros [= <-].
  - (* an epoch *)
    intros r m Hm. destruct (decide (model = r)) as [->|Hne].
    + rewrite list_lookup_alter_eq in Hm.
      destruct (heap h !! r) as [m0|] eqn:Hm0; [|done].
      injection Hm as <-.
      destruct (Hinv r m0 Hm0) as [(k & Hk & ->) Hjob].
      match goal with Hl : fits h !! r = Some ?j |- _ =>
        destruct (Hjob j Hl) as [He25 Hek] end.
      destruct (iter_fit_fields k (buildModel D)) as (_ & _ & Hf).
      rewrite Hf in Hek. cbn in Hek.
      split.
      * exists (S k). split; [lia|done].
      * intros job. rewrite lookup_insert_eq. intros [= <-]. cbn.
        split; [done|]. rewrite Hf. cbn. lia.
    + rewrite list_lookup_alter_ne in Hm by done.
      destruct (Hinv r m Hm) as [Hk Hjob]. split; [done|].
      intros job. rewrite lookup_insert_ne by done. apply Hjob.
  - (* the fulfilment *)
    intros r m Hm. destruct (Hinv r m Hm) as [Hk Hjob]. split; [done|].
    intros job Hj. apply lookup_delete_Some in Hj as [_ Hj]. by apply Hjob.
  - (* a rejection *)
    intros r m Hm. destruct (Hinv r m Hm) as [Hk Hjob]. split; [done|].
    intros job Hj. apply lookup_delete_Some in Hj as [_ Hj]. by apply Hjob.
Qed.

Lemma fit_is_classifier_step (s : State) (e : Event) :
  single_fit s → fit_is_classifier s → fit_is_classifier (step s e).1.
Proof.
  destruct s as [v p h]. unfold single_fit, fit_is_classifier; cbn.
  intros Hsingle Hinv.
  destruct e; js_cases; try done.
  - (* a click on train that passes the check *)
    destruct Hsingle as [Hf | [? _]]; [|congruence].
    intros r Hr. rewrite Hf in Hr.
    apply lookup_insert_is_Some in Hr as [<-|[_ Hr]]; [done|].
    rewrite lookup_empty in Hr. by destruct Hr.
  - intros r Hr. apply lookup_insert_is_Some in Hr as [<-|[_ Hr]]; by eauto.
  - intros r Hr. apply lookup_delete_is_Some in Hr as [_ Hr]. by eauto.
  - intros r Hr. apply lookup_delete_is_Some in Hr as [_ Hr]. by eauto.
Qed.

Lemma reachable_models (page0 : Page) (es : list Event) :
  models_fitted (run (initial page0) es).1 ∧
  fit_is_classifier (run (initial page0) es).1.
Proof.
  assert (Hall : single_fit (run (initial page0) es).1 ∧
                 models_fitted (run (initial page0) es).1 ∧
                 fit_is_classifier (run (initial page0) es).1).
  { apply (run_invariant
             (λ s, single_fit s ∧ models_fitted s ∧ fit_is_classifier s)
             (λ _, true)); [|apply forallb_any|].
    - intros s e _ (Hs & Hm & Hc). split_and!.
      + by apply single_fit_step.
      + by apply models_fitted_step.
      + by apply fit_is_classifier_step.
    - split_and!; [by left| |]; intros r; cbn; [done|].
      rewrite lookup_empty. by intros [? ?]. }
  by destruct Hall as (_ & ? & ?).
Qed.

(** X13.  However often train is clicked and whatever else happens, every
    model the program has built keeps the layers and the compile settings
    [buildModel] gave it and has been fitted for at most 25 epochs. *)
Theorem models_keep_architecture
    (page0 : Page) (es : list Event) (r : nat) (m : Sequential) :
  heap (host (run (initial page0) es).1) !! r = Some m →
  layers m = [dense 128 relu (Some [D]); dropout 0.25; dense 2 softmax None] ∧
  compiled m = Some {| optimizer := adam 0.0005;
                       loss := categoricalCrossentropy;
                       metrics := [accuracy] |} ∧
  (epochs_fitted m ≤ 25)%nat.
Proof.
  intros Hm. destruct (reachable_models page0 es) as [Hmod _].
  destruct (Hmod r m Hm) as [(k & Hk & ->) _].
  destruct (iter_fit_fields k (buildModel D)) as (-> & -> & ->).
  cbn. split_and!; [done..|lia].
Qed.

(** X14.  Whenever the program announces the end of a training run (the
    [fit] of model [r] is fulfilled and the train handler resumes), the
    model [classifierModel] refers to is [r], fitted for exactly 25 epochs,
    and both the start and the train button are enabled. *)
Theorem training_done_means_25_epochs
    (page0 : Page) (es : list Event) (r : nat) :
  let s := (run (initial page0) es).1 in
  let s' := (step s (FitResolved r)).1 in
  (step s (FitResolved r)).2 ≠ [] →
  (step s (FitResolved r)).2 = [StatusText "Training Done! Start Prediction."] ∧
  classifierModel (vars s') = Some r ∧
  heap (host s') !! r = Some (Nat.iter 25 fit_one_epoch (buildModel D)) ∧
  startPredictBtn_disabled (page s') = false ∧
  trainBtn_disabled (page s') = false.
Proof.
  intros s s' Heff.
  destruct (reachable_models page0 es) as [Hmod Hcls].
  destruct (reachable_invariants page0 es) as [[_ Hvalid] _].
  fold s in Hmod, Hcls, Hvalid. subst s'. clearbody s.
  destruct s as [v p h]. cbn in *.
  revert Heff. js_unfold; cbn.
  destruct (fits h !! r) as [job|] eqn:Hj; cbn; [|done].
  destruct (decide (fit_epoch job = fit_epochs job)) as [Heq|Hne]; cbn; [|done].
  intros _.
  assert (Hr : is_Some (fits h !! r)) by by eexists.
  destruct (lookup_lt_is_Some_2 (heap h) r (Hvalid r Hr)) as [m Hm].
  destruct (Hmod r m Hm) as [(k & Hk & ->) Hjob].
  destruct (Hjob job Hj) as [He25 Hek].
  destruct (iter_fit_fields k (buildModel D)) as (_ & _ & Hf).
  rewrite Hf in Hek. cbn in Hek.
  replace k with 25%nat in Hm by lia.
  split_and!; [done|by apply Hcls|done..].
Qed.

(** ** One training run at a time *)

(** X15.  In every state the program can reach at most one [fit] is in
    flight, and while one is, the train button is disabled: a click on
    train changes nothing and has no effect. *)
Theorem one_training_at_a_time
    (page0 : Page) (es : list Event) (r1 r2 : nat) :
  let s := (run (initial page0) es).1 in
  is_Some (fits (host s) !! r1) →
  (is_Some (fits (host s) !! r2) → r1 = r2) ∧
  trainBtn_disabled (page s) = true ∧
  step s ClickTrain = (s, []).
Proof.
  intros s Hr1.
  destruct (reachable_invariants page0 es) as [_ Hsingle].
  fold s in Hsingle. clearbody s.
  destruct Hsingle as [Hf | (Hd & r & job & Hf)]; rewrite Hf in *.
  { rewrite lookup_empty in Hr1. by destruct Hr1. }
  split_and!; [|done|].
  - intros Hr2. destruct Hr1 as [j1 Hr1], Hr2 as [j2 Hr2].
    apply lookup_singleton_Some in Hr1 as [<- _].
    by apply lookup_singleton_Some in Hr2 as [<- _].
  - unfold step, dispatch. by rewrite click_disabled.
Qed.

(** The data of the [fit] on model [r] stay what they were when it was
    started. *)
Lemma fit_data_step
    (r : nat) (xs : list Embedding) (ys : list (list nat)) (s : State) (e : Event) :
  (r < length (heap (host s)))%nat →
  (∀ job, fits (host s) !! r = Some job → fit_xs job = xs ∧ fit_ys job = ys) →
  (r < length (heap (host (step s e).1)))%nat ∧
  (∀ job, fits (host (step s e).1) !! r = Some job →
          fit_xs job = xs ∧ fit_ys job = ys).
Proof.
  destruct s as [v p h]. cbn. intros Hr Hinv.
  destruct e; js_cases; rewrite ?length_app, ?length_alter; cbn;
    try (split; [lia|done]).
  - split; [lia|]. intros job. rewrite lookup_insert_ne by lia. apply Hinv.
  - split; [done|]. intros job.
    destruct (decide (model = r)) as [->|Hne].
    + rewrite lookup_insert_eq. intros [= <-]. cbn. by apply Hinv.
    + rewrite lookup_insert_ne by done. apply Hinv.
  - split; [done|]. intros job Hj.
    apply lookup_delete_Some in Hj as [_ Hj]. by apply Hinv.
  - split; [done|]. intros job Hj.
    apply lookup_delete_Some in Hj as [_ Hj]. by apply Hinv.
Qed.

(** X16.  A training run works on the samples that were in the buckets
    when train was clicked: whatever is captured or clicked afterwards, as
    long as the [fit] is in flight its inputs are those samples, class A
    first, and its labels the matching one-hot rows. *)
Theorem training_data_fixed_at_click (s : State) (es : list Event) (job : FitJob) :
  let r := length (heap (host s)) in
  let s1 := state_after (trainBtn_onclick s) in
  (10 ≤ length (embeddingsA (vars s)) + length (embeddingsB (vars s)))%nat →
  fits (host (run s1 es).1) !! r = Some job →
  fit_xs job = embeddingsA (vars s) ++ embeddingsB (vars s) ∧
  fit_ys job = replicate (length (embeddingsA (vars s))) [1; 0]%nat ++
               replicate (length (embeddingsB (vars s))) [0; 1]%nat.
Proof.
  intros r s1 Hge.
  assert (Hs1 : s1 = state_after (trainBtn_onclick s)) by done.
  clearbody s1. rewrite trainBtn_onclick_passes in Hs1 by done.
  unfold state_after in Hs1; cbn in Hs1. fold r in Hs1.
  set (xs := embeddingsA (vars s) ++ embeddingsB (vars s)) in *.
  set (ys := replicate (length (embeddingsA (vars s))) [1; 0]%nat ++
             replicate (length (embeddingsB (vars s))) [0; 1]%nat) in *.
  assert (Hinv : (r < length (heap (host (run s1 es).1)))%nat ∧
                 (∀ job, fits (host (run s1 es).1) !! r = Some job →
                         fit_xs job = xs ∧ fit_ys job = ys)).
  { apply (run_invariant
             (λ s', (r < length (heap (host s')))%nat ∧
                    (∀ job, fits (host s') !! r = Some job →
                            fit_xs job = xs ∧ fit_ys job = ys))
             (λ _, true)); [|apply forallb_any|].
    - intros s' e _ [Hr Hj]. by apply fit_data_step.
    - rewrite Hs1. cbn. split.
      + rewrite length_app. cbn. unfold r. lia.
      + intros job'. rewrite lookup_insert_eq. by intros [= <-]. }
  apply Hinv.
Qed.

(** ** Training runs, epoch by epoch *)

Lemma epoch_notifications_imap (k : nat) (logs : list (Num * Num)) :
  epoch_notifications k logs =
  imap (λ i l, StatusText (epoch_text (k + i) l)) logs.
Proof.
  revert k. induction logs as [|l logs IH]; intros k; [done|].
  cbn [epoch_notifications]. rewrite imap_cons, IH, Nat.add_0_r. f_equal.
  apply imap_ext. intros i x _. cbn. f_equal. f_equal. lia.
Qed.

Lemma epoch_lines_distinct (i j : nat) (l l' : Num * Num) :
  (i < 25)%nat → (j < 25)%nat →
  "Epoch " +:+ pretty (i + 1)%nat +:+ " — Loss: " +:+ toFixed l.1 3
    +:+ " Acc: " +:+ toFixed l.2 3 =
  "Epoch " +:+ pretty (j + 1)%nat +:+ " — Loss: " +:+ toFixed l'.1 3
    +:+ " Acc: " +:+ toFixed l'.2 3 →
  i = j.
Proof.
  intros Hi Hj.
  do 25 (try destruct i as [|i]); try lia;
    (do 25 (try destruct j as [|j]); try lia);
    try reflexivity; intros Heq; vm_compute in Heq; discriminate Heq.
Qed.

(** C6.  The train handler starts one [fit] with [epochs: 25] and
    [shuffle: true], and its only callback is [onEpochEnd].  Whatever epoch
    index and logs [fit] hands to that callback, the callback writes one
    status line that carries the index plus one, the loss and the accuracy,
    and touches nothing else: it cannot stop or alter the [fit]; the lines
    of two different epochs differ, whatever the logs.  Over any
    run in which that [fit] goes through its epochs and is fulfilled,
    whatever else happens in between, the program's effects for it are one
    such line per epoch for the first 25 epochs, numbered 1 to 25 in this
    order, each with the loss and accuracy of its epoch, and then the final
    status; with fewer than 25 epochs the [fit] is not fulfilled, and epochs
    beyond the 25th do not exist. *)
Theorem training_run_notifications
    (s : State) (es : list Event) (logs : list (Num * Num)) :
  let r := length (heap (host s)) in
  let s1 := state_after (trainBtn_onclick s) in
  let text := λ (epoch : nat) (l : Num * Num),
    "Epoch " +:+ pretty (epoch + 1)%nat +:+ " — Loss: " +:+ toFixed l.1 3
      +:+ " Acc: " +:+ toFixed l.2 3 in
  (10 ≤ length (embeddingsA (vars s)) + length (embeddingsB (vars s)))%nat →
  filter (is_fit_event r) es = fit_epoch_events r logs ++ [FitResolved r] →
  (∃ job, fits (host s1) !! r = Some job ∧ fit_epochs job = 25%nat ∧
          fit_shuffle job = true ∧ fit_epoch job = 0%nat) ∧
  (∀ epoch l s',
     onEpochEnd epoch l s' =
       (Normal (), with_page (set_statusEl_innerText (text epoch l)) s',
        [StatusText (text epoch l)])) ∧
  (∀ i j l l', (i < 25)%nat → (j < 25)%nat → text i l = text j l' → i = j) ∧
  effects_where (is_fit_event r) s1 es =
    imap (λ i l, StatusText (text i l)) (take 25 logs) ++
    (if bool_decide (25 ≤ length logs)%nat
     then [StatusText "Training Done! Start Prediction."] else []).
Proof.
  intros r s1 text Hge Hf. subst s1.
  rewrite trainBtn_onclick_passes by done. fold r.
  unfold state_after; cbn [fst snd].
  split_and!.
  - eexists. cbn. by rewrite lookup_insert_eq.
  - done.
  - intros i j l l'. apply epoch_lines_distinct.
  - match goal with |- effects_where _ ?st _ = _ => set (s1 := st) end.
    assert (Hj : fits (host s1) !! r = Some _) by apply lookup_insert_eq.
    rewrite (fit_progress r es s1 _ logs true Hj); cbn; [|done|lia| |done].
    + by rewrite epoch_notifications_imap.
    + rewrite length_app. unfold r. cbn. lia.
Qed.

(** ** A training run that fails or is interrupted *)

Lemma not_settled_not_resolved (r : nat) (es : list Event) :
  forallb (not_settled r) es = true → forallb (not_resolved r) es = true.
Proof.
  induction es as [|e es IH]; [done|]. cbn.
  intros [He Hes]%andb_prop. rewrite IH by done.
  destruct e; cbn in *; by rewrite ?He.
Qed.

(** Events of other origin leave the model [r] as it is. *)
Lemma step_foreign_heap (r : nat) (s : State) (e : Event) :
  is_fit_event r e = false →
  (r < length (heap (host s)))%nat →
  heap (host (step s e).1) !! r = heap (host s) !! r.
Proof.
  destruct s as [v p h]. cbn. intros He Hr.
  destruct e; js_cases; try done.
  - by apply lookup_app_l.
  - apply bool_decide_eq_false in He. by apply list_lookup_alter_ne.
Qed.

(** Where a [fit] on model [r] and the model stand after a run that does
    not settle it: each of its epoch events counts, up to the 25th. *)
Lemma fit_pending_run (r : nat) (m0 : Sequential) (es : list Event) :
  ∀ (s : State) (job : FitJob),
  fits (host s) !! r = Some job →
  fit_epochs job = 25%nat →
  (fit_epoch job ≤ 25)%nat →
  heap (host s) !! r = Some (Nat.iter (fit_epoch job) fit_one_epoch m0) →
  forallb (not_settled r) es = true →
  let n := Nat.min 25 (fit_epoch job + count_events (is_epoch_of r) es) in
  (∃ job', fits (host (run s es).1) !! r = Some job' ∧
           fit_epochs job' = 25%nat ∧ fit_epoch job' = n) ∧
  heap (host (run s es).1) !! r = Some (Nat.iter n fit_one_epoch m0).
Proof.
  induction es as [|e es IH]; intros s job Hj He25 Hle Hm Hes.
  { cbv zeta. cbn [count_events run fst]. rewrite Nat.add_0_r, Nat.min_r by done.
    eauto. }
  cbn in Hes. apply andb_prop in Hes as [He Hes].
  cbv zeta. rewrite run_cons_state. cbn [count_events].
  assert (Hr : (r < length (heap (host s)))%nat) by by eapply lookup_lt_Some.
  destruct (is_fit_event r e) eqn:Hev.
  - destruct e as [ |net|c|c| | | |r' lo ac|r'|r'|id c|k]; try done;
      cbn in Hev, He.
    2,3: by rewrite Hev in He.
    apply bool_decide_eq_true in Hev as ->. cbn [is_epoch_of].
    rewrite bool_decide_eq_true_2 by done.
    destruct (decide (fit_epoch job < 25)%nat) as [Hlt|Hge].
    + destruct (step_fit_epoch_state r s job lo ac Hj)
        as (_ & _ & Hh & job' & Hj' & He' & Hk'); [lia|].
      replace (fit_epoch job + (1 + count_events (is_epoch_of r) es))%nat
        with (fit_epoch job' + count_events (is_epoch_of r) es)%nat by lia.
      apply IH; [done|congruence|lia| |done].
      by rewrite Hh, list_lookup_alter_eq, Hm, Hk'.
    + rewrite (step_fit_epoch_over r s job lo ac Hj) by lia. cbn [fst].
      replace (Nat.min 25 (fit_epoch job + (1 + count_events (is_epoch_of r) es)))
        with (Nat.min 25 (fit_epoch job + count_events (is_epoch_of r) es)) by lia.
      by apply IH.
  - destruct (step_foreign_fit r s e Hev Hr) as [Hj' Hr'].
    pose proof (step_foreign_heap r s e Hev Hr) as Hm'.
    replace (if is_epoch_of r e then 1 else 0)%nat with 0%nat
      by (destruct e; try done; cbn in *; by rewrite Hev).
    apply IH; [by rewrite Hj'|done..| by rewrite Hm' |done].
Qed.

(** C9 (as amended).  In any state the program can reach with the train
    button enabled, a click on it that passes the check points
    [classifierModel] to a model that did not exist before, as [buildModel]
    has just made it and with no epoch fitted, before the [fit] call has
    run any epoch.  While that [fit] is pending, and for the rest of the
    session once it has been rejected, [classifierModel] stays that model
    and the reference it held before is not put back; the model has been
    fitted for the epochs that completed before the failure (each epoch
    event of that [fit] up to the 25th), so it is untrained exactly when
    none did. *)
Theorem failed_training_leaves_new_model
    (page0 : Page) (es0 es1 es2 : list Event) :
  let s := (run (initial page0) es0).1 in
  let r := length (heap (host s)) in
  let s1 := (step s ClickTrain).1 in
  let n := Nat.min 25 (count_events (is_epoch_of r) es1) in
  let s2 := (run s1 (es1 ++ [FitRejected r])).1 in
  trainBtn_disabled (page s) = false →
  (10 ≤ length (embeddingsA (vars s)) + length (embeddingsB (vars s)))%nat →
  forallb (not_settled r) es1 = true →
  classifierModel (vars s) ≠ Some r ∧
  classifierModel (vars s1) = Some r ∧
  heap (host s1) !! r = Some (buildModel D) ∧
  epochs_fitted (buildModel D) = 0%nat ∧
  fit_epoch <$> fits (host s1) !! r = Some 0%nat ∧
  classifierModel (vars (run s1 es1).1) = Some r ∧
  heap (host (run s1 es1).1) !! r =
    Some (Nat.iter n fit_one_epoch (buildModel D)) ∧
  classifierModel (vars (run s2 es2).1) = Some r ∧
  heap (host (run s2 es2).1) !! r =
    Some (Nat.iter n fit_one_epoch (buildModel D)) ∧
  epochs_fitted (Nat.iter n fit_one_epoch (buildModel D)) = n.
Proof.
  intros s r s1 n s2 Hen Hge Hes.
  destruct (reachable_invariants page0 es0) as [[Hc _] Hsingle].
  fold s in Hc, Hsingle. clearbody s.
  assert (Hfits : fits (host s) = ∅).
  { destruct Hsingle as [?|[? _]]; [done|congruence]. }
  assert (Hs1 : s1 = state_after (trainBtn_onclick s)).
  { subst s1. unfold step, dispatch. by rewrite click_enabled. }
  clearbody s1. rewrite trainBtn_onclick_passes in Hs1 by done.
  unfold state_after in Hs1; cbn in Hs1. fold r in Hs1.
  assert (Hh1 : heap (host s1) !! r = Some (buildModel D)).
  { rewrite Hs1. cbn. by apply list_lookup_middle. }
  assert (Hj1 : fits (host s1) !! r = Some
            {| fit_xs := embeddingsA (vars s) ++ embeddingsB (vars s);
               fit_ys := replicate (length (embeddingsA (vars s))) [1; 0]%nat ++
                         replicate (length (embeddingsB (vars s))) [0; 1]%nat;
               fit_epochs := 25; fit_shuffle := true; fit_epoch := 0 |}).
  { rewrite Hs1. cbn. by rewrite lookup_insert_eq. }
  assert (Hun : training_unfinished r s1).
  { rewrite Hs1. split_and!; cbn; [done..| |].
    - intros r' Hr'. rewrite lookup_insert_ne by congruence.
      by rewrite Hfits, lookup_empty.
    - exists 0%nat. by apply list_lookup_middle. }
  assert (Hc1 : classifierModel (vars s1) = Some r) by by rewrite Hs1.
  pose proof (training_unfinished_run r es1 s1
                (not_settled_not_resolved r es1 Hes) Hun) as Hun1.
  destruct (fit_pending_run r (buildModel D) es1 s1 _ Hj1 eq_refl
              ltac:(cbn; lia) Hh1 Hes) as [_ Hhn].
  cbn [fit_epoch] in Hhn. rewrite Nat.add_0_l in Hhn. fold n in Hhn.
  assert (Hs2 : train_locked s2 ∧ classifierModel (vars s2) = Some r ∧
                heap (host s2) = heap (host (run s1 es1).1)).
  { subst s2. rewrite run_app. cbn [fst].
    set (s1' := (run s1 es1).1) in *. clearbody s1'.
    destruct Hun1 as (Hc' & Hd' & Hf' & _).
    destruct s1' as [v p h]. cbn in *.
    split_and!; [split; [done|]|done..].
    cbn. apply map_empty. intros r'.
    destruct (decide (r' = r)) as [->|Hne].
    - apply lookup_delete_eq.
    - rewrite lookup_delete_ne by congruence. by apply Hf'. }
  destruct Hs2 as (Hl2 & Hc2 & Hh2).
  destruct (train_locked_run es2 s2 Hl2) as (_ & Hc3 & Hh3 & _).
  clearbody s2.
  split_and!; try done.
  - intros Hold. apply Hc in Hold. subst r. lia.
  - by rewrite Hj1.
  - by destruct Hun1.
  - by rewrite Hc3.
  - by rewrite Hh3, Hh2.
  - destruct (iter_fit_fields n (buildModel D)) as (_ & _ & ->). cbn. lia.
Qed.

End Proofs.

(** * The theorems at concrete sessions *)

#[local] Existing Instance demo_runtime.

Lemma train_insufficient_data_witness :
  (length (embeddingsA (vars demo_five)) +
   length (embeddingsB (vars demo_five)) < 10)%nat ∧
  effects_of (trainBtn_onclick demo_five) =
    [Alert "At least 10 total images needed (example: 5A + 5B)"] ∧
  state_after (trainBtn_onclick demo_five) = demo_five.
Proof.
  assert (Hlt : (length (embeddingsA (vars demo_five)) +
                 length (embeddingsB (vars demo_five)) < 10)%nat)
    by (vm_compute; lia).
  split; [exact Hlt|].
  destruct (train_insufficient_data demo_five Hlt) as (He & Hs & _).
  by split.
Defined.

(** C4 (as stated) fails: a click on capture-A before MobileNet has loaded
    adds a thumbnail to the gallery and no sample to the bucket. *)
Lemma capture_before_load_not_counted :
  galleryA_children (page (run demo_start [ClickCaptureA 7]).1) = ["data:7"] ∧
  counts (run demo_start [ClickCaptureA 7]).1 = (0, 0)%nat ∧
  counts (run demo_start [ClickCaptureA 7]).1 ≠
    (count_events is_captureA [ClickCaptureA 7],
     count_events is_captureB [ClickCaptureA 7]).
Proof. vm_compute. split_and!; [reflexivity..|discriminate]. Qed.

Lemma counts_after_captures_witness :
  is_Some (mobilenetModel (vars demo_loaded)) ∧
  counts (run demo_loaded
            [ClickCaptureA 1; ClickCaptureB 2; ClickTrain; ClickCaptureB 3;
             ClickCaptureA 4; ClickCaptureB 5]).1 = (2, 3)%nat.
Proof.
  assert (Hm : is_Some (mobilenetModel (vars demo_loaded)))
    by (vm_compute; eauto).
  split; [exact Hm|].
  exact (counts_after_captures demo_loaded
           [ClickCaptureA 1; ClickCaptureB 2; ClickTrain; ClickCaptureB 3;
            ClickCaptureA 4; ClickCaptureB 5] Hm).
Defined.

Lemma train_builds_classifier_witness :
  (10 ≤ length (embeddingsA (vars demo_ten)) +
        length (embeddingsB (vars demo_ten)))%nat ∧
  classifierModel (vars (state_after (trainBtn_onclick demo_ten))) = Some 0%nat ∧
  heap (host (state_after (trainBtn_onclick demo_ten))) !! 0%nat =
    Some (buildModel 4).
Proof.
  assert (Hge : (10 ≤ length (embeddingsA (vars demo_ten)) +
                      length (embeddingsB (vars demo_ten)))%nat)
    by (vm_compute; lia).
  split; [exact Hge|].
  destruct (train_builds_classifier demo_ten Hge) as (Hc & Hh & _).
  split; [exact Hc | exact Hh].
Defined.

Lemma stop_ends_prediction_cycles_witness :
  let es1 := [IntervalFired 1 5; ClickCaptureA 9; IntervalFired 1 6] in
  let es2 := [PredictionData 0; IntervalFired 1 7; ClickTrain; PredictionData 0] in
  let s3 := state_after (stopPredictBtn_onclick
              (run (state_after (startPredictBtn_onclick demo_ten)) es1).1) in
  timers (host demo_ten) = ∅ ∧
  forallb (λ e, negb (is_start e)) es1 = true ∧
  forallb (λ e, negb (is_start e)) es2 = true ∧
  predictor s3 = Idle ∧
  timers (host (run s3 es2).1) = ∅ ∧
  filter is_cycle_begun (run s3 es2).2 = [].
Proof.
  intros es1 es2 s3.
  assert (Ht : timers (host demo_ten) = ∅) by (vm_compute; reflexivity).
  assert (H1 : forallb (λ e, negb (is_start e)) es1 = true)
    by (vm_compute; reflexivity).
  assert (H2 : forallb (λ e, negb (is_start e)) es2 = true)
    by (vm_compute; reflexivity).
  split; [exact Ht|]. split; [exact H1|]. split; [exact H2|].
  destruct (stop_ends_prediction_cycles demo_ten es1 es2 Ht H1 H2)
    as (_ & _ & Hidle & _ & _ & _ & _ & Hno & Hnone).
  split; [exact Hidle|]. split; [exact Hno | exact Hnone].
Defined.

Lemma stop_idempotent_witness :
  predictInterval (vars demo_ten) = None ∧
  effects_of (stopPredictBtn_onclick demo_ten) = [StatusText "Stopped."] ∧
  host (state_after (stopPredictBtn_onclick demo_ten)) = host demo_ten ∧
  state_after (stopPredictBtn_onclick
                 (state_after (stopPredictBtn_onclick demo_ten))) =
    state_after (stopPredictBtn_onclick demo_ten).
Proof.
  assert (Hp : predictInterval (vars demo_ten) = None)
    by (vm_compute; reflexivity).
  split; [exact Hp|].
  destruct (stop_idempotent demo_ten) as (Hidle & Htwice & _).
  destruct (Hidle Hp) as (He & _ & Hh & _).
  split; [exact He|]. split; [exact Hh | exact Htwice].
Defined.

(** * The further theorems at concrete sessions *)

Lemma capture_without_extractor_witness :
  mobilenetModel (vars demo_start) = None ∧
  captureA_onclick 7 demo_start =
    (Thrown,
     with_page (λ p, set_galleryA (galleryA_children p ++ [toDataURL 7])
                                  (toDataURL 7) p) demo_start,
     []).
Proof.
  assert (Hm : mobilenetModel (vars demo_start) = None) by reflexivity.
  split; [exact Hm|].
  exact (proj1 (capture_without_extractor demo_start 7 Hm)).
Defined.

Lemma thumb_shows_latest_capture_witness :
  let es := [ClickCaptureA 1; ClickTrain; ClickCaptureA 2; ClickStopPredict] in
  (0 < count_events is_captureA es)%nat ∧
  thumbA_latest (run demo_loaded es).1.
Proof.
  intros es.
  assert (Hc : (0 < count_events is_captureA es)%nat) by (vm_compute; lia).
  split; [exact Hc|].
  exact (proj1 (thumb_shows_latest_capture demo_loaded es) Hc).
Defined.

Lemma nothing_before_extractor_witness :
  let s := (run (initial page_at_load) [ClickCaptureA 7; ClickTrain]).1 in
  mobilenetModel (vars s) = None ∧
  counts s = (0, 0)%nat ∧ classifierModel (vars s) = None ∧ fits (host s) = ∅.
Proof.
  intros s.
  assert (Hm : mobilenetModel (vars s) = None) by (vm_compute; reflexivity).
  split; [exact Hm|].
  exact (proj2 (nothing_before_extractor page_at_load
                  [ClickCaptureA 7; ClickTrain]) Hm).
Defined.

Lemma no_camera_no_training_witness :
  let es := [ClickCaptureA 1; ClickTrain; ClickStartPredict; IntervalFired 1 5] in
  let s := (run (initial page_at_load) es).1 in
  forallb (λ e, negb (is_webcam_ready e)) es = true ∧
  mobilenetModel (vars s) = None ∧
  counts s = (0, 0)%nat.
Proof.
  intros es s.
  assert (Hes : forallb (λ e, negb (is_webcam_ready e)) es = true)
    by (vm_compute; reflexivity).
  split; [exact Hes|].
  pose proof (no_camera_no_training page_at_load es Hes) as Hthm.
  split; [exact (proj1 Hthm) | exact (proj1 (proj2 Hthm))].
Defined.

Lemma rejected_training_locks_train_button_witness :
  let s := (run (initial page_at_load) demo_ten_events).1 in
  let r := length (heap (host s)) in
  let s1 := (step s ClickTrain).1 in
  let es1 := [FitEpochEnd r 3 4] in
  let es2 := [ClickTrain; ClickCaptureA 1; FitResolved r; ClickTrain] in
  let s2 := (run s1 (es1 ++ [FitRejected r])).1 in
  trainBtn_disabled (page s) = false ∧
  (10 ≤ length (embeddingsA (vars s)) + length (embeddingsB (vars s)))%nat ∧
  forallb (not_resolved r) es1 = true ∧
  trainBtn_disabled (page (run s2 es2).1) = true ∧
  classifierModel (vars (run s2 es2).1) = Some r.
Proof.
  intros s r s1 es1 es2 s2.
  assert (Hen : trainBtn_disabled (page s) = false)
    by (vm_compute; reflexivity).
  assert (Hge : (10 ≤ length (embeddingsA (vars s)) +
                      length (embeddingsB (vars s)))%nat)
    by (vm_compute; lia).
  assert (Hes : forallb (not_resolved r) es1 = true)
    by (vm_compute; reflexivity).
  split; [exact Hen|]. split; [exact Hge|]. split; [exact Hes|].
  pose proof (rejected_training_locks_train_button page_at_load
                demo_ten_events es1 es2 Hen Hge Hes) as Hthm.
  split; [exact (proj1 Hthm) | exact (proj1 (proj2 Hthm))].
Defined.

Lemma orphaned_timer_never_cancelled_witness :
  let es := [ClickStopPredict; ClickStartPredict; ClickStopPredict] in
  timer_orphaned 1 300 demo_leak ∧
  timer_orphaned 1 300 (run demo_leak es).1.
Proof.
  intros es.
  assert (Ho : timer_orphaned 1 300 demo_leak).
  { vm_compute. split; [reflexivity|]. split; [discriminate|lia]. }
  split; [exact Ho|].
  exact (proj1 (orphaned_timer_never_cancelled 1 300 demo_leak es 5 Ho)).
Defined.

Lemma prediction_cycle_without_models_witness :
  let s := state_after (startPredictBtn_onclick demo_start) in
  is_Some (timers (host s) !! 1%nat) ∧
  (mobilenetModel (vars s) = None ∨ classifierModel (vars s) = None) ∧
  step s (IntervalFired 1 5) =
    (with_page (set_previewCanvas (Some 5)) s, [CycleBegun 1]).
Proof.
  intros s.
  assert (Ht : is_Some (timers (host s) !! 1%nat)) by (vm_compute; eauto).
  assert (Hn : mobilenetModel (vars s) = None ∨ classifierModel (vars s) = None)
    by (left; reflexivity).
  split; [exact Ht|]. split; [exact Hn|].
  exact (proj1 (proj2 (prediction_cycle_without_models s 1 5) Ht Hn)).
Defined.

Lemma every_cycle_finds_its_models_witness :
  let s := (run (initial page_at_load) demo_running_events).1 in
  startPredictBtn_disabled page_at_load = true ∧
  stopPredictBtn_disabled page_at_load = true ∧
  is_Some (timers (host s) !! 1%nat) ∧
  (step s (IntervalFired 1 5)).2 = [CycleBegun 1].
Proof.
  intros s.
  assert (Ht : is_Some (timers (host s) !! 1%nat)) by (vm_compute; eauto).
  split; [reflexivity|]. split; [reflexivity|]. split; [exact Ht|].
  destruct (every_cycle_finds_its_models page_at_load demo_running_events
              1 5 eq_refl eq_refl Ht)
    as (net & r & m & _ & _ & _ & He & _).
  exact He.
Defined.

Lemma bars_change_only_on_prediction_witness :
  let es := [IntervalFired 1 6; ClickTrain; ClickStopPredict; IntervalFired 1 7] in
  forallb (λ e, negb (is_prediction_data e)) es = true ∧
  cycles (host demo_predicting) !! 0%nat = Some (5, 25)%nat ∧
  bars (run demo_predicting es).1 = bars demo_predicting ∧
  bars (run (step demo_predicting (PredictionData 0)).1 es).1 =
    (default (barA_width (page demo_predicting))
             (css_width (toFixed (times100 5) 2 +:+ "%")),
     default (barB_width (page demo_predicting))
             (css_width (toFixed (times100 25) 2 +:+ "%")),
     toFixed (times100 5) 2 +:+ "%",
     toFixed (times100 25) 2 +:+ "%").
Proof.
  intros es.
  assert (Hes : forallb (λ e, negb (is_prediction_data e)) es = true)
    by (vm_compute; reflexivity).
  assert (Hk : cycles (host demo_predicting) !! 0%nat = Some (5, 25)%nat)
    by (vm_compute; reflexivity).
  split; [exact Hes|]. split; [exact Hk|].
  pose proof (bars_change_only_on_prediction demo_predicting es Hes) as Hthm.
  split; [exact (proj1 Hthm) | exact (proj2 Hthm 0%nat 5%nat 25%nat Hk)].
Defined.

Lemma retraining_predicts_with_partial_model_witness :
  let logs := [(3, 4); (1, 2)] in
  let r := length (heap (host demo_running)) in
  let s2 := (run (state_after (trainBtn_onclick demo_running))
                 (fit_epoch_events r logs)).1 in
  (10 ≤ length (embeddingsA (vars demo_running)) +
        length (embeddingsB (vars demo_running)))%nat ∧
  mobilenetModel (vars demo_running) = Some tt ∧
  is_Some (timers (host demo_running) !! 1%nat) ∧
  (length logs ≤ 25)%nat ∧
  cycles (host (step s2 (IntervalFired 1 5)).1) =
    cycles (host s2) ++
    [predict (Nat.iter (length logs) fit_one_epoch (buildModel D))
             (infer_global_average tt 5)].
Proof.
  intros logs r s2.
  assert (Hge : (10 ≤ length (embeddingsA (vars demo_running)) +
                      length (embeddingsB (vars demo_running)))%nat)
    by (vm_compute; lia).
  assert (Hm : mobilenetModel (vars demo_running) = Some tt)
    by (vm_compute; reflexivity).
  assert (Ht : is_Some (timers (host demo_running) !! 1%nat))
    by (vm_compute; eauto).
  assert (Hl : (length logs ≤ 25)%nat) by (vm_compute; lia).
  split; [exact Hge|]. split; [exact Hm|]. split; [exact Ht|]. split; [exact Hl|].
  exact (retraining_predicts_with_partial_model demo_running logs 1 5 tt
           Hge Hm Ht Hl).
Defined.

Lemma models_keep_architecture_witness :
  let es := demo_ten_events ++ [ClickTrain; FitEpochEnd 0 3 4] in
  let m := fit_one_epoch (buildModel D) in
  heap (host (run (initial page_at_load) es).1) !! 0%nat = Some m ∧
  (epochs_fitted m ≤ 25)%nat.
Proof.
  intros es m.
  assert (Hm : heap (host (run (initial page_at_load) es).1) !! 0%nat = Some m)
    by (vm_compute; reflexivity).
  split; [exact Hm|].
  exact (proj2 (proj2 (models_keep_architecture page_at_load es 0 m Hm))).
Defined.

Lemma training_done_means_25_epochs_witness :
  let es := demo_ten_events ++ ClickTrain :: replicate 25 (FitEpochEnd 0 3 4) in
  let s := (run (initial page_at_load) es).1 in
  let s' := (step s (FitResolved 0)).1 in
  (step s (FitResolved 0)).2 ≠ [] ∧
  classifierModel (vars s') = Some 0%nat ∧
  heap (host s') !! 0%nat = Some (Nat.iter 25 fit_one_epoch (buildModel D)).
Proof.
  intros es s s'.
  assert (He : (step s (FitResolved 0)).2 ≠ []) by (vm_compute; discriminate).
  split; [exact He|].
  pose proof (training_done_means_25_epochs page_at_load es 0 He) as Hthm.
  split; [exact (proj1 (proj2 Hthm)) | exact (proj1 (proj2 (proj2 Hthm)))].
Defined.

Lemma one_training_at_a_time_witness :
  let es := demo_ten_events ++ [ClickTrain; ClickCaptureA 9] in
  let s := (run (initial page_at_load) es).1 in
  is_Some (fits (host s) !! 0%nat) ∧
  trainBtn_disabled (page s) = true ∧
  step s ClickTrain = (s, []).
Proof.
  intros es s.
  assert (Hr : is_Some (fits (host s) !! 0%nat)) by (vm_compute; eauto).
  split; [exact Hr|].
  exact (proj2 (one_training_at_a_time page_at_load es 0 0 Hr)).
Defined.

Lemma training_data_fixed_at_click_witness :
  let r := length (heap (host demo_ten)) in
  let s1 := state_after (trainBtn_onclick demo_ten) in
  let es := [ClickCaptureA 9; FitEpochEnd r 3 4; ClickCaptureB 8] in
  let job := {| fit_xs := replicate 10 7%nat;
                fit_ys := replicate 5 [1; 0]%nat ++ replicate 5 [0; 1]%nat;
                fit_epochs := 25; fit_shuffle := true; fit_epoch := 1 |} in
  (10 ≤ length (embeddingsA (vars demo_ten)) +
        length (embeddingsB (vars demo_ten)))%nat ∧
  fits (host (run s1 es).1) !! r = Some job ∧
  length (embeddingsA (vars (run s1 es).1)) = 6%nat ∧
  fit_xs job = embeddingsA (vars demo_ten) ++ embeddingsB (vars demo_ten).
Proof.
  intros r s1 es job.
  assert (Hge : (10 ≤ length (embeddingsA (vars demo_ten)) +
                      length (embeddingsB (vars demo_ten)))%nat)
    by (vm_compute; lia).
  assert (Hj : fits (host (run s1 es).1) !! r = Some job)
    by (vm_compute; reflexivity).
  split; [exact Hge|]. split; [exact Hj|].
  split; [vm_compute; reflexivity|].
  exact (proj1 (training_data_fixed_at_click demo_ten es job Hge Hj)).
Defined.

Lemma training_run_notifications_witness :
  let es := fit_epoch_events 0 (replicate 12 (3, 4)) ++ [ClickCaptureA 9] ++
            fit_epoch_events 0 (replicate 13 (1, 2)) ++ [FitResolved 0] in
  let logs := replicate 12 (3, 4) ++ replicate 13 (1, 2) in
  let text := λ (epoch : nat) (l : Num * Num),
    "Epoch " +:+ pretty (epoch + 1)%nat +:+ " — Loss: " +:+ toFixed l.1 3
      +:+ " Acc: " +:+ toFixed l.2 3 in
  (10 ≤ length (embeddingsA (vars demo_ten)) +
        length (embeddingsB (vars demo_ten)))%nat ∧
  filter (is_fit_event 0) es = fit_epoch_events 0 logs ++ [FitResolved 0] ∧
  effects_where (is_fit_event 0) (state_after (trainBtn_onclick demo_ten)) es =
    imap (λ i l, StatusText (text i l)) logs ++
    [StatusText "Training Done! Start Prediction."].
Proof.
  intros es logs text.
  assert (Hge : (10 ≤ length (embeddingsA (vars demo_ten)) +
                      length (embeddingsB (vars demo_ten)))%nat)
    by (vm_compute; lia).
  assert (Hf : filter (is_fit_event 0) es =
               fit_epoch_events 0 logs ++ [FitResolved 0])
    by (vm_compute; reflexivity).
  split; [exact Hge|]. split; [exact Hf|].
  exact (proj2 (proj2 (proj2
           (training_run_notifications demo_ten es logs Hge Hf)))).
Defined.

(** C9 (as stated) fails: a second training run that is rejected after two
    epochs leaves [classifierModel] on the new model, which has been fitted
    for those two epochs and is no longer as built; the classifier of the
    first run, fitted for 25 epochs, is still on the heap and not in use. *)
Lemma failed_training_model_not_untrained :
  let s := (run demo_start
              (demo_trained_events ++
               [ClickTrain; FitEpochEnd 1 3 4; FitEpochEnd 1 1 2;
                FitRejected 1])).1 in
  classifierModel (vars (run demo_start demo_trained_events).1) = Some 0%nat ∧
  classifierModel (vars s) = Some 1%nat ∧
  epochs_fitted <$> heap (host s) !! 1%nat = Some 2%nat ∧
  heap (host s) !! 1%nat ≠ Some (buildModel D) ∧
  epochs_fitted <$> heap (host s) !! 0%nat = Some 25%nat.
Proof. vm_compute. split_and!; [reflexivity..|discriminate|reflexivity]. Qed.

Lemma failed_training_leaves_new_model_witness :
  let s := (run (initial page_at_load) demo_trained_events).1 in
  let r := length (heap (host s)) in
  let s1 := (step s ClickTrain).1 in
  let es1 := [FitEpochEnd r 3 4; ClickCaptureA 9; FitEpochEnd r 1 2] in
  let es2 := [ClickTrain; FitEpochEnd r 5 5; ClickCaptureB 2] in
  let n := Nat.min 25 (count_events (is_epoch_of r) es1) in
  let s2 := (run s1 (es1 ++ [FitRejected r])).1 in
  trainBtn_disabled (page s) = false ∧
  (10 ≤ length (embeddingsA (vars s)) + length (embeddingsB (vars s)))%nat ∧
  forallb (not_settled r) es1 = true ∧
  classifierModel (vars s) = Some 0%nat ∧
  n = 2%nat ∧
  classifierModel (vars s) ≠ Some r ∧
  classifierModel (vars (run s2 es2).1) = Some r ∧
  heap (host (run s2 es2).1) !! r =
    Some (Nat.iter n fit_one_epoch (buildModel D)).
Proof.
  intros s r s1 es1 es2 n s2.
  assert (Hen : trainBtn_disabled (page s) = false)
    by (vm_compute; reflexivity).
  assert (Hge : (10 ≤ length (embeddingsA (vars s)) +
                      length (embeddingsB (vars s)))%nat)
    by (vm_compute; lia).
  assert (Hes : forallb (not_settled r) es1 = true)
    by (vm_compute; reflexivity).
  split; [exact Hen|]. split; [exact Hge|]. split; [exact Hes|].
  split; [vm_compute; reflexivity|]. split; [vm_compute; reflexivity|].
  pose proof (failed_training_leaves_new_model page_at_load
                demo_trained_events es1 es2 Hen Hge Hes) as Hthm.
  split; [exact (proj1 Hthm) |].
  split; [exact (proj1 (proj2 (proj2 (proj2 (proj2 (proj2 (proj2 (proj2 Hthm))))))))|].
  exact (proj1 (proj2 (proj2 (proj2 (proj2 (proj2 (proj2 (proj2 (proj2 Hthm))))))))).
Defined.
